(** * Dataset processing pipeline of MusicTutor (process_datasets.py)

    A shallow embedding of [DatasetProcessor] and [main] and the
    properties of label inference, corpus persistence and training-set
    preparation.

    Conventions of the embedding:
    - Python [str] is [string] (a byte string); [str.lower] is modelled on
      the ASCII letters, every other byte is left alone.
    - Floating-point samples are an abstract type [F]; only the shapes of
      the numeric arrays are reasoned about.
    - librosa's feature functions are parameters of the model; what is
      assumed of them is stated where it is used.
    - Everything outside the interpreter (random source, clock, the
      dataset directories, the output files, standard output, a possible
      I/O fault while a file is written, a directory that cannot be
      made, a file that cannot be opened) is a field of [World],
      threaded through a state-and-exception monad.
    - [json.dump] is modelled as the stream of pieces it writes, with the
      one value of the corpus document its encoder refuses. *)

From Stdlib Require Import Ascii String NArith.
From stdpp Require Import base strings list gmap.

(** ** Exceptions *)

(** A raised Python exception: its class name and its message. Every
    exception of the model is an instance of [Exception]. *)
Inductive exn : Type :=
| Raised (cls : string) (msg : string).

Definition ValueError (msg : string) : exn := Raised "ValueError" msg.

Inductive result (A : Type) : Type :=
| Ok (a : A)
| Raise (e : exn).
Arguments Ok {A} a.
Arguments Raise {A} e.

(** ** Python strings and lists *)

Module Py.

(** [c.lower()] for one byte: 'A'..'Z' are shifted, the rest is kept. *)
Definition lower_ascii (c : ascii) : ascii :=
  let n := N_of_ascii c in
  if ((65 <=? n) && (n <=? 90))%N then ascii_of_N (n + 32) else c.

(** [s.lower()] *)
Fixpoint lower (s : string) : string :=
  match s with
  | EmptyString => EmptyString
  | String c s' => String (lower_ascii c) (lower s')
  end.

(** [p in s] on strings: [p] occurs in [s] as a contiguous substring. *)
Fixpoint contains (p s : string) : bool :=
  String.prefix p s ||
  match s with
  | EmptyString => false
  | String _ s' => contains p s'
  end.

(** [s.split(sep)] for a one-character separator: every occurrence
    splits, empty fields are kept. [cur] is the field being read,
    reversed. *)
Fixpoint split_go (sep : ascii) (cur : string) (s : string) : list string :=
  match s with
  | EmptyString => [String.rev cur]
  | String c s' =>
      if Ascii.eqb c sep then String.rev cur :: split_go sep EmptyString s'
      else split_go sep (String c cur) s'
  end.

Definition split (sep : ascii) (s : string) : list string :=
  split_go sep EmptyString s.

(** [l.index(x)]: position of the first occurrence; ValueError when
    [x] is not in the list. *)
Fixpoint index (x : string) (l : list string) : result nat :=
  match l with
  | [] => Raise (ValueError (x +:+ " is not in list"))
  | y :: l' =>
      if String.eqb y x then Ok 0
      else match index x l' with
           | Ok i => Ok (S i)
           | Raise e => Raise e
           end
  end.

(** [x in l] on a list of strings. *)
Definition mem (x : string) (l : list string) : bool :=
  existsb (String.eqb x) l.

End Py.

(** ** Console output *)

(** One constructor per message of the script; [print] calls that
    follow each other without anything in between are one message. *)
Inductive Event : Type :=
| PrintGuitarSetStart
| PrintGuitarSetMissing
| PrintGuitarSetDone (n : nat)
| PrintIdmtStart
| PrintIdmtMissing
| PrintIdmtDone (n : nat)
| PrintProgress (n : nat)
| PrintFileError (audio_file : string) (e : exn)
| PrintFeatureError (e : exn)
| PrintSaving (n : nat) (output_file : string)
| PrintSaved (output_file : string)
| PrintPreparing
| PrintPrepared (rows cols classes : nat)
| PrintBanner
| PrintNoDataset
| PrintTrainingSaved (json_file npz_file : string)
| PrintTrainingError (e : exn)
| PrintNextSteps.

(** ** Constants of [DatasetProcessor.__init__] *)

Definition sample_rate : N := 22050.
Definition hop_length : nat := 512.
Definition n_fft : nat := 2048.
Definition n_mels : nat := 128.
Definition n_chroma : nat := 12.

Definition chord_vocab : list string :=
  [ "C"; "C#"; "D"; "D#"; "E"; "F"; "F#"; "G"; "G#"; "A"; "A#"; "B";
    "Cm"; "C#m"; "Dm"; "D#m"; "Em"; "Fm"; "F#m"; "Gm"; "G#m"; "Am"; "A#m"; "Bm";
    "C7"; "D7"; "E7"; "G7"; "A7"; "Cm7"; "Dm7"; "Em7"; "Gm7"; "Am7" ].

(** ** Label inference of the IDMT adapter *)

(** The dict literal of [infer_chord_from_filename]; a Python dict
    iterates in insertion order, so it is an ordered list of pairs. *)
Definition chord_mappings : list (string * string) :=
  [ ("a", "A"); ("am", "Am"); ("a7", "A7");
    ("c", "C"); ("cm", "Cm"); ("c7", "C7");
    ("d", "D"); ("dm", "Dm"); ("d7", "D7");
    ("e", "E"); ("em", "Em"); ("e7", "E7");
    ("g", "G"); ("gm", "Gm"); ("g7", "G7") ].

(** The [for pattern, chord in ...: if pattern in filename_lower: return
    chord] loop over a table: the first entry whose pattern occurs. *)
Fixpoint first_match (table : list (string * string)) (filename_lower : string)
  : option string :=
  match table with
  | [] => None
  | (pattern, chord) :: rest =>
      if Py.contains pattern filename_lower then Some chord
      else first_match rest filename_lower
  end.

(** The list handed to [np.random.choice]. *)
Definition fallback_chords : list string :=
  [ "C"; "D"; "E"; "G"; "A"; "Am"; "Em"; "Dm" ].

(** ** Arrays, samples and the outside world *)

Section Pipeline.

(** The type of floating-point numbers. [inhabitant] is only read at
    indices outside an array's shape, which the code never does. *)
Context {F : Type} `{!Inhabited F}.

(** [np.mean] of a non-empty sequence of floats. *)
Variable np_mean : list F -> F.

(** A two-dimensional [np.ndarray]. *)
Record ndarray : Type := {
  shape0 : nat;
  shape1 : nat;
  item : nat -> nat -> F
}.

(** [a.T] *)
Definition transpose (a : ndarray) : ndarray :=
  {| shape0 := shape1 a; shape1 := shape0 a; item := fun i j => item a j i |}.

(** [a.tolist()] *)
Definition tolist (a : ndarray) : list (list F) :=
  map (fun i => map (fun j => item a i j) (seq 0 (shape1 a))) (seq 0 (shape0 a)).

(** [a.size] *)
Definition size_of (a : ndarray) : nat := shape0 a * shape1 a.

(** [np.array(rows)] on a list of rows: a 2-D array when all rows have
    the length of the first, ValueError (inhomogeneous shape) if not. *)
Definition np_array (rows : list (list F)) : result ndarray :=
  let cols := length (hd [] rows) in
  if forallb (fun r => Nat.eqb (length r) cols) rows then
    Ok {| shape0 := length rows; shape1 := cols;
          item := fun i j => (rows !!! i) !!! j |}
  else Raise (ValueError "inhomogeneous shape").

(** [np.mean(a, axis=0)]: one mean per column. *)
Definition np_mean_axis0 (a : ndarray) : list F :=
  map (fun j => np_mean (map (fun i => item a i j) (seq 0 (shape0 a))))
      (seq 0 (shape1 a)).

(** A mono waveform as [librosa.load] returns it. *)
Definition Audio : Type := list F.

(** The librosa calls of [extract_features], with the arguments the
    script passes, in the script's order. [Raise] is a raised
    exception. *)
Class Librosa : Type := {
  chroma_stft (y : Audio) (sr : N) (n_fft hop_length n_chroma : nat) : result ndarray;
  melspectrogram (y : Audio) (sr : N) (n_fft hop_length n_mels : nat) : result ndarray;
  power_to_db (S : ndarray) : result ndarray;
  librosa_mfcc (y : Audio) (sr : N) (n_mfcc n_fft hop_length : nat) : result ndarray;
  librosa_spectral_centroid (y : Audio) (sr : N) (n_fft hop_length : nat) : result ndarray;
  librosa_rms (y : Audio) (frame_length hop_length : nat) : result ndarray;
  zero_crossing_rate (y : Audio) (frame_length hop_length : nat) : result ndarray
}.

Context `{!Librosa}.

(** The ['shape'] entry of a feature dict. *)
Record FeatureShape : Type := {
  time_steps : nat;
  chroma_bins : nat;
  mel_bins : nat;
  mfcc_coeffs : nat
}.

(** The dict [extract_features] returns on success. *)
Record Features : Type := {
  chroma : list (list F);
  mel_spectrogram : list (list F);
  mfcc : list (list F);
  spectral_centroid : list (list F);
  rms : list (list F);
  zcr : list (list F);
  shape : FeatureShape
}.

(** The ['metadata'] entry of a sample, one shape per adapter. *)
Inductive SampleMetadata : Type :=
| GuitarSetMetadata (player style : string) (sr : N)
| IdmtMetadata (filename : string) (sr : N).

(** A sample dict. [features] is [None] for the empty dict [{}].
    [duration] is [len(audio) / sample_rate], kept as the pair of
    numerator and denominator. *)
Record Sample : Type := {
  id : string;
  chord : string;
  instrument : string;
  quality : string;
  audio_file : string;
  duration : nat * N;
  features : option Features;
  metadata : SampleMetadata
}.

(** A [*.wav] file found by [rglob]: its path, [Path.stem], and what
    [librosa.load(path, sr=22050, mono=True)] does on it. *)
Record AudioFile : Type := {
  path : string;
  stem : string;
  decoded : result Audio
}.

Record FeatureConfig : Type := {
  cfg_sample_rate : N;
  cfg_hop_length : nat;
  cfg_n_fft : nat;
  cfg_n_mels : nat;
  cfg_n_chroma : nat
}.

(** The ['metadata'] block of the corpus document. [list(set(...))] has
    no specified order, so the two lists are sets. *)
Record Metadata : Type := {
  total_samples : nat;
  unique_chords : nat;
  chord_distribution : gmap string nat;
  instruments : gset string;
  qualities : gset string;
  processing_date : string;
  feature_config : FeatureConfig
}.

(** [json.dump] streams the document to the file object piece by
    piece, a dict in insertion order. The pieces are kept at this
    granularity: the metadata block up to the first count of its
    histogram, the histogram, the rest of the metadata block, each
    sample, the closing of the document. *)
Inductive Chunk : Type :=
| ChunkHead (total_samples unique_chords : nat)
| ChunkDistribution (chord_distribution : gmap string nat)
| ChunkTail (instruments qualities : gset string) (processing_date : string)
    (feature_config : FeatureConfig)
| ChunkSample (s : Sample)
| ChunkEnd.

(** What a path of the output tree holds. *)
Inductive File : Type :=
| JsonFile (chunks : list Chunk)
| NpzFile (X : ndarray) (y : list nat) (vocab : list string).

Record World : Type := {
  (** the draws numpy's global generator will deliver, next one first *)
  rng : nat -> nat;
  (** [str(np.datetime64('now'))] *)
  clock : string;
  (** [rglob("*.wav")] under [datasets/guitarset/audio], in discovery
      order; [None] when the directory does not exist *)
  guitarset_audio : option (list AudioFile);
  (** the same under [datasets/idmt-guitar] *)
  idmt_guitar : option (list AudioFile);
  (** [Some k]: the [k+1]-th write to a file object raises OSError *)
  write_fault : option nat;
  (** what [Path(p).parent.mkdir(parents=True, exist_ok=True)] does for
      a path [p]: [Some e] when it raises [e] (FileExistsError when a
      regular file sits at the parent path, NotADirectoryError when one
      sits above it, PermissionError), [None] when the directories are
      there afterwards *)
  mkdir_fault : string -> option exn;
  (** what [open(p, 'w')] does: [Some e] when it raises [e]
      (IsADirectoryError, PermissionError), [None] when the file is
      opened *)
  open_fault : string -> option exn;
  (** the regular files of the output tree *)
  files : gmap string File;
  (** what has been printed, oldest first *)
  stdout : list Event
}.

Definition set_rng (r : nat -> nat) (w : World) : World :=
  {| rng := r; clock := clock w; guitarset_audio := guitarset_audio w;
     idmt_guitar := idmt_guitar w; write_fault := write_fault w;
     mkdir_fault := mkdir_fault w; open_fault := open_fault w;
     files := files w; stdout := stdout w |}.

Definition set_write_fault (k : option nat) (w : World) : World :=
  {| rng := rng w; clock := clock w; guitarset_audio := guitarset_audio w;
     idmt_guitar := idmt_guitar w; write_fault := k;
     mkdir_fault := mkdir_fault w; open_fault := open_fault w;
     files := files w; stdout := stdout w |}.

Definition set_files (fs : gmap string File) (w : World) : World :=
  {| rng := rng w; clock := clock w; guitarset_audio := guitarset_audio w;
     idmt_guitar := idmt_guitar w; write_fault := write_fault w;
     mkdir_fault := mkdir_fault w; open_fault := open_fault w;
     files := fs; stdout := stdout w |}.

Definition set_stdout (out : list Event) (w : World) : World :=
  {| rng := rng w; clock := clock w; guitarset_audio := guitarset_audio w;
     idmt_guitar := idmt_guitar w; write_fault := write_fault w;
     mkdir_fault := mkdir_fault w; open_fault := open_fault w;
     files := files w; stdout := out |}.

(** ** The monad of the script: state and exceptions *)

Definition M (A : Type) : Type := World -> result A * World.

Definition ret {A} (a : A) : M A := fun w => (Ok a, w).

Definition bind {A B} (c : M A) (k : A -> M B) : M B :=
  fun w => match c w with
           | (Ok a, w') => k a w'
           | (Raise e, w') => (Raise e, w')
           end.

Definition raise {A} (e : exn) : M A := fun w => (Raise e, w).

(** [try: c except Exception as e: h e]; the effects of [c] up to the
    exception stay. *)
Definition try_except {A} (c : M A) (h : exn -> M A) : M A :=
  fun w => match c w with
           | (Ok a, w') => (Ok a, w')
           | (Raise e, w') => h e w'
           end.

(** A library call that returns or raises without touching the world. *)
Definition call {A} (r : result A) : M A := fun w => (r, w).

Definition print (ev : Event) : M unit :=
  fun w => (Ok tt, set_stdout (stdout w ++ [ev]) w).

#[global] Instance M_ret : MRet M := @ret.
#[global] Instance M_bind : MBind M := fun A B k c => bind c k.

Definition gets {A} (f : World -> A) : M A := fun w => (Ok (f w), w).

(** [for x in l: s = body(s, x)] *)
Fixpoint for_each {A St} (body : St -> A -> M St) (s : St) (l : list A) : M St :=
  match l with
  | [] => mret s
  | x :: l' => s' ← body s x; for_each body s' l'
  end.

(** ** [DatasetProcessor] *)

(** [np.random.choice(l)]: consumes one draw of the generator. *)
Definition np_random_choice (l : list string) : M string :=
  fun w => (Ok (nth (rng w 0 `mod` length l) l ""),
            set_rng (fun n => rng w (S n)) w).

Definition infer_chord_from_filename (filename : string) : M string :=
  let filename_lower := Py.lower filename in
  match first_match chord_mappings filename_lower with
  | Some chord => mret chord
  | None => np_random_choice fallback_chords
  end.

Definition extract_features (audio : Audio) : M (option Features) :=
  try_except
    (chroma ← call (chroma_stft audio sample_rate n_fft hop_length n_chroma);
     mel_spec ← call (melspectrogram audio sample_rate n_fft hop_length n_mels);
     mel_spec_db ← call (power_to_db mel_spec);
     mfccs ← call (librosa_mfcc audio sample_rate 13 n_fft hop_length);
     spectral_centroid ← call (librosa_spectral_centroid audio sample_rate n_fft hop_length);
     rms ← call (librosa_rms audio n_fft hop_length);
     zcr ← call (zero_crossing_rate audio n_fft hop_length);
     mret (Some {| chroma := tolist (transpose chroma);
                   mel_spectrogram := tolist (transpose mel_spec_db);
                   mfcc := tolist (transpose mfccs);
                   spectral_centroid := tolist (transpose spectral_centroid);
                   rms := tolist (transpose rms);
                   zcr := tolist (transpose zcr);
                   shape := {| time_steps := shape1 chroma;
                               chroma_bins := n_chroma;
                               mel_bins := n_mels;
                               mfcc_coeffs := 13 |} |}))
    (fun e => print (PrintFeatureError e);; mret None).

(** One iteration of the loop of [process_guitarset]. The only call of
    the [try] block that can raise is [librosa.load], which comes
    before [samples.append]; the handler therefore continues with the
    list as it was. *)
Definition process_guitarset_file (samples : list Sample) (audio_file : AudioFile)
  : M (list Sample) :=
  try_except
    (match Py.split "_" (stem audio_file) with
     | player :: chord :: style :: _ =>
         audio ← call (decoded audio_file);
         features ← extract_features audio;
         let sample :=
           {| id := "GuitarSet_" +:+ player +:+ "_" +:+ chord +:+ "_" +:+ style;
              chord := chord;
              instrument := "guitar";
              quality := "studio";
              audio_file := path audio_file;
              duration := (length audio, sample_rate);
              features := features;
              metadata := GuitarSetMetadata player style sample_rate |} in
         let samples := samples ++ [sample] in
         (if Nat.eqb (length samples `mod` 50) 0
          then print (PrintProgress (length samples)) else mret tt);;
         mret samples
     | _ => mret samples
     end)
    (fun e => print (PrintFileError (path audio_file) e);; mret samples).

Definition process_guitarset : M (list Sample) :=
  print PrintGuitarSetStart;;
  audio_dir ← gets guitarset_audio;
  match audio_dir with
  | None => print PrintGuitarSetMissing;; mret []
  | Some wavs =>
      samples ← for_each process_guitarset_file [] wavs;
      print (PrintGuitarSetDone (length samples));;
      mret samples
  end.

(** One iteration of the loop of [process_idmt_guitar]. *)
Definition process_idmt_file (samples : list Sample) (audio_file : AudioFile)
  : M (list Sample) :=
  try_except
    (let filename := stem audio_file in
     chord ← infer_chord_from_filename filename;
     audio ← call (decoded audio_file);
     features ← extract_features audio;
     let sample :=
       {| id := "IDMT_" +:+ filename;
          chord := chord;
          instrument := "guitar";
          quality := "mixed";
          audio_file := path audio_file;
          duration := (length audio, sample_rate);
          features := features;
          metadata := IdmtMetadata filename sample_rate |} in
     let samples := samples ++ [sample] in
     (if Nat.eqb (length samples `mod` 100) 0
      then print (PrintProgress (length samples)) else mret tt);;
     mret samples)
    (fun e => print (PrintFileError (path audio_file) e);; mret samples).

Definition process_idmt_guitar : M (list Sample) :=
  print PrintIdmtStart;;
  dataset_dir ← gets idmt_guitar;
  match dataset_dir with
  | None => print PrintIdmtMissing;; mret []
  | Some wavs =>
      samples ← for_each process_idmt_file [] wavs;
      print (PrintIdmtDone (length samples));;
      mret samples
  end.

(** The dict built from [np.unique(chords, return_counts=True)]: how
    often each label occurs. *)
Definition count_labels (labels : list string) : gmap string nat :=
  foldr (fun c m => <[c := S (default 0 (m !! c))]> m) ∅ labels.

(** A Python string as numpy keeps it: [np.unique] first makes an
    array of fixed-width unicode strings of the list, and such an
    array does not keep the NUL characters a string ends with. *)
Fixpoint np_str (s : string) : string :=
  match s with
  | EmptyString => EmptyString
  | String c s' =>
      match np_str s' with
      | EmptyString => if Ascii.eqb c Ascii.zero then EmptyString else String c EmptyString
      | rest => String c rest
      end
  end.

Definition np_unique_counts (chords : list string) : gmap string nat :=
  count_labels (np_str <$> chords).

(** [Path(output_file).parent.mkdir(parents=True, exist_ok=True)]:
    directories are not tracked, [files] holds regular files only; the
    call raises when the world says so and changes nothing the model
    keeps. *)
Definition mkdir_parent (output_file : string) : M unit :=
  fun w =>
    match mkdir_fault w output_file with
    | Some e => (Raise e, w)
    | None => (Ok tt, w)
    end.

(** [open(output_file, 'w')]: the file is created, or cut to length
    zero when it exists, unless the open is refused, in which case the
    exception is raised and the file is as before. *)
Definition open_w (output_file : string) : M unit :=
  fun w =>
    match open_fault w output_file with
    | Some e => (Raise e, w)
    | None => (Ok tt, set_files (<[output_file := JsonFile []]> (files w)) w)
    end.

(** [f.write(chunk)] on the file opened at [output_file]: the chunk
    goes to the end of the file, unless the fault of the world is due,
    in which case OSError is raised and nothing is written. *)
Definition fp_write (output_file : string) (c : Chunk) : M unit :=
  fun w =>
    match write_fault w with
    | Some 0 => (Raise (Raised "OSError" output_file), w)
    | k =>
        let written :=
          match files w !! output_file with
          | Some (JsonFile cs) => cs
          | _ => []
          end in
        (Ok tt,
         set_write_fault (pred <$> k)
           (set_files (<[output_file := JsonFile (written ++ [c])]> (files w)) w))
    end.

(** The pieces [json.dump] writes for [{'metadata': ..., 'samples':
    ...}], in order. *)
Definition json_chunks (m : Metadata) (samples : list Sample) : list Chunk :=
  [ ChunkHead (total_samples m) (unique_chords m);
    ChunkDistribution (chord_distribution m);
    ChunkTail (instruments m) (qualities m) (processing_date m) (feature_config m) ]
  ++ map ChunkSample samples ++ [ChunkEnd].

(** What the encoder makes of a piece. It knows Python's own numbers,
    strings, lists and dicts, and the document is made of these ([len],
    [str], [tolist], literals), except for the counts of the histogram:
    [np.unique] returns them as numpy integers, which are not instances
    of [int]. For such a value the encoder calls [default], which
    raises TypeError. A histogram with an entry can therefore not be
    encoded; the empty histogram is the empty dict. *)
Definition json_encode (c : Chunk) : result Chunk :=
  match c with
  | ChunkDistribution d =>
      if bool_decide (d = ∅) then Ok c
      else Raise (Raised "TypeError" "Object of type int64 is not JSON serializable")
  | _ => Ok c
  end.

(** One round of the loop of [json.dump]: the next piece is encoded,
    then written. *)
Definition write_chunk (output_file : string) (_ : unit) (c : Chunk) : M unit :=
  encoded ← call (json_encode c); fp_write output_file encoded.

(** [json.dump(data, f, indent=2)] *)
Definition json_dump (m : Metadata) (samples : list Sample) (output_file : string)
  : M unit :=
  for_each (write_chunk output_file) tt (json_chunks m samples).

(** The [with] block closes the file on every exit and lets an
    exception through. *)
Definition save_processed_data (samples : list Sample) (output_file : string)
  : M unit :=
  print (PrintSaving (length samples) output_file);;
  mkdir_parent output_file;;
  let chords := map chord samples in
  let instruments := map instrument samples in
  let qualities := map quality samples in
  now ← gets clock;
  let metadata :=
    {| total_samples := length samples;
       unique_chords := size (list_to_set chords : gset string);
       chord_distribution := np_unique_counts chords;
       instruments := list_to_set instruments;
       qualities := list_to_set qualities;
       processing_date := now;
       feature_config :=
         {| cfg_sample_rate := sample_rate;
            cfg_hop_length := hop_length;
            cfg_n_fft := n_fft;
            cfg_n_mels := n_mels;
            cfg_n_chroma := n_chroma |} |} in
  open_w output_file;;
  json_dump metadata samples output_file;;
  print (PrintSaved output_file).

(** [self.chord_vocab.index(c) if c in self.chord_vocab else 0] *)
Definition label_index (c : string) : M nat :=
  if Py.mem c chord_vocab then call (Py.index c chord_vocab) else mret 0.

(** One iteration of the loop of [prepare_training_data], on the pair
    [(features_list, labels_list)]. *)
Definition prepare_sample (acc : list (list F) * list nat) (sample : Sample)
  : M (list (list F) * list nat) :=
  match features sample with
  | None => mret acc
  | Some feats =>
      match chroma feats with
      | [] => mret acc
      | rows =>
          chroma ← call (np_array rows);
          if 0 <? size_of chroma then
            let feature_vector := np_mean_axis0 chroma in
            label_idx ← label_index (chord sample);
            mret (acc.1 ++ [feature_vector], acc.2 ++ [label_idx])
          else mret acc
      end
  end.

Definition prepare_training_data (samples : list Sample) : M (ndarray * list nat) :=
  print PrintPreparing;;
  acc ← for_each prepare_sample ([], []) samples;
  let features_list := acc.1 in
  let labels_list := acc.2 in
  match features_list with
  | [] => raise (ValueError "Nenhuma feature válida encontrada")
  | _ =>
      X ← call (np_array features_list);
      let y := labels_list in
      print (PrintPrepared (shape0 X) (shape1 X) (length chord_vocab));;
      mret (X, y)
  end.

(** [np.savez(file, X=X, y=y, chord_vocab=vocab)], written in one
    piece. *)
Definition np_savez (file : string) (X : ndarray) (y : list nat) (vocab : list string)
  : M unit :=
  fun w => (Ok tt, set_files (<[file := NpzFile X y vocab]> (files w)) w).

(** ** [main] *)

(** The parsed command line. *)
Record Args : Type := {
  datasets : list string;
  output_dir : string
}.

Definition default_args : Args :=
  {| datasets := ["guitarset"; "idmt-guitar"]; output_dir := "datasets/processed" |}.

Definition main (args : Args) : M unit :=
  print PrintBanner;;
  guitarset_samples ←
    (if Py.mem "guitarset" (datasets args) then process_guitarset else mret []);
  idmt_samples ←
    (if Py.mem "idmt-guitar" (datasets args) then process_idmt_guitar else mret []);
  let all_samples := guitarset_samples ++ idmt_samples in
  match all_samples with
  | [] => print PrintNoDataset
  | _ =>
      let output_file := output_dir args +:+ "/musictutor_training_data.json" in
      save_processed_data all_samples output_file;;
      try_except
        (Xy ← prepare_training_data all_samples;
         let npz := output_dir args +:+ "/training_data.npz" in
         np_savez npz Xy.1 Xy.2 chord_vocab;;
         print (PrintTrainingSaved output_file npz))
        (fun e => print (PrintTrainingError e));;
      print PrintNextSteps
  end.

End Pipeline.

(** * Properties *)

(** ** Substring matching *)

Lemma prefix_app_l (p q s : string) :
  String.prefix (p +:+ q) s = true -> String.prefix p s = true.
Proof.
  revert s. induction p as [|a p IH]; intros s H.
  - by destruct s.
  - destruct s as [|b s]; simpl in *; [done|].
    destruct (ascii_dec a b); [by apply IH | done].
Qed.

Lemma contains_app_l (p q s : string) :
  Py.contains (p +:+ q) s = true -> Py.contains p s = true.
Proof.
  induction s as [|b s IH]; cbn [Py.contains]; rewrite !orb_true_iff.
  - intros [H|H]; [left; by apply (prefix_app_l p q) | done].
  - intros [H|H]; [left; by apply (prefix_app_l p q) | right; by apply IH].
Qed.

(** A filename without the letter has neither the letter's minor nor its
    seventh pattern. *)
Lemma contains_letter_false (p q s : string) :
  Py.contains p s = false -> Py.contains (p +:+ q) s = false.
Proof.
  intros H. destruct (Py.contains (p +:+ q) s) eqn:E; [|done].
  apply contains_app_l in E. congruence.
Qed.

(** The five entries of [chord_mappings] that come first for their
    letter. *)
Definition major_mappings : list (string * string) :=
  [ ("a", "A"); ("c", "C"); ("d", "D"); ("e", "E"); ("g", "G") ].

Definition major_chords : list string := [ "A"; "C"; "D"; "E"; "G" ].

Lemma first_match_major_mappings (filename_lower : string) :
  first_match chord_mappings filename_lower
  = first_match major_mappings filename_lower.
Proof.
  unfold chord_mappings, major_mappings; simpl.
  repeat match goal with
  | |- context [Py.contains ?p filename_lower] =>
      lazymatch p with
      | "a" => idtac | "c" => idtac | "d" => idtac | "e" => idtac | "g" => idtac
      end;
      let E := fresh "E" in
      destruct (Py.contains p filename_lower) eqn:E; [reflexivity|];
      rewrite (contains_letter_false p "m" filename_lower E : Py.contains (String _ "m") _ = false);
      rewrite (contains_letter_false p "7" filename_lower E : Py.contains (String _ "7") _ = false)
  end.
  reflexivity.
Qed.

Lemma first_match_major (filename_lower chord : string) :
  first_match chord_mappings filename_lower = Some chord -> chord ∈ major_chords.
Proof.
  rewrite first_match_major_mappings. unfold major_mappings, major_chords; simpl.
  repeat (case (Py.contains _ filename_lower);
          [intros [= <-]; apply (bool_decide_unpack _); by vm_compute|]).
  done.
Qed.

(** ** Membership and position in a list of strings *)

Lemma mem_true_iff (x : string) (l : list string) : Py.mem x l = true <-> x ∈ l.
Proof.
  unfold Py.mem. rewrite existsb_exists. split.
  - intros (y & Hin & Heq). apply String.eqb_eq in Heq. subst y.
    by apply list_elem_of_In.
  - intros Hin. exists x. split; [by apply list_elem_of_In | apply String.eqb_refl].
Qed.

Lemma mem_false_iff (x : string) (l : list string) : Py.mem x l = false <-> x ∉ l.
Proof.
  rewrite <- mem_true_iff. destruct (Py.mem x l); split; congruence.
Qed.

(** [index] finds the position of a label that occurs once. *)
Lemma index_lookup (l : list string) (k : nat) (x : string) :
  NoDup l -> l !! k = Some x -> Py.index x l = Ok k.
Proof.
  intros Hnd. revert k. induction Hnd as [|y l Hy Hnd IH]; intros k Hk; [done|].
  destruct k as [|k]; simpl in *.
  - injection Hk as ->. by rewrite String.eqb_refl.
  - destruct (String.eqb y x) eqn:E.
    + apply String.eqb_eq in E. subst y. destruct Hy.
      by eapply list_elem_of_lookup_2.
    + by rewrite (IH k Hk).
Qed.

Lemma chord_vocab_NoDup : NoDup chord_vocab.
Proof. apply (bool_decide_unpack _). by vm_compute. Qed.

Section Properties.

Context {F : Type} `{!Inhabited F}.
Variable np_mean : list F -> F.
Context `{!Librosa (F:=F)}.

Local Abbreviation World := (@World F).
Local Abbreviation Sample := (@Sample F).
Local Abbreviation ndarray := (@ndarray F).
Local Abbreviation Features := (@Features F).
Local Abbreviation Audio := (@Audio F).
Local Abbreviation AudioFile := (@AudioFile F).
Local Abbreviation Chunk := (@Chunk F).

(** ** Label inference *)

(** C9. On the pattern-matching path [infer_chord_from_filename] can only
    return one of A, C, D, E, G: the table behaves like its five
    single-letter entries, because a name that has a letter's minor or
    seventh pattern has the letter itself, which is checked first. A
    matched name leaves the random generator alone; every other label
    is the draw of [np.random.choice]. *)
Theorem pattern_path_only_majors :
  (forall filename_lower : string,
     first_match chord_mappings filename_lower
     = first_match major_mappings filename_lower) /\
  (forall (filename : string) (w : World),
     match first_match chord_mappings (Py.lower filename) with
     | Some c =>
         c ∈ major_chords /\ infer_chord_from_filename filename w = (Ok c, w)
     | None =>
         infer_chord_from_filename filename w
         = np_random_choice fallback_chords w
     end).
Proof.
  split; [exact first_match_major_mappings|].
  intros filename w. unfold infer_chord_from_filename.
  destruct (first_match chord_mappings (Py.lower filename)) as [c|] eqn:E.
  - split; [by eapply first_match_major | reflexivity].
  - reflexivity.
Qed.

(** C1. A name whose lowercase form contains "gm" also contains "g", and
    "g" (or an earlier single letter) is met first in the table: the label
    is one of A, C, D, E, G, without a random draw, and never Gm. *)
Theorem gm_filename_gets_major_label (filename : string) (w : World) :
  Py.contains "gm" (Py.lower filename) = true ->
  exists c : string,
    infer_chord_from_filename filename w = (Ok c, w) /\
    c ∈ major_chords /\ c <> "Gm".
Proof.
  intros Hgm. apply (contains_app_l "g" "m") in Hgm.
  unfold infer_chord_from_filename.
  destruct (first_match chord_mappings (Py.lower filename)) as [c|] eqn:E.
  - exists c. split; [reflexivity|].
    apply first_match_major in E. split; [done|].
    intros ->. revert E. apply (bool_decide_unpack _). by vm_compute.
  - exfalso. rewrite first_match_major_mappings in E.
    unfold major_mappings in E; simpl in E. rewrite Hgm in E. clear Hgm.
    repeat (destruct (Py.contains _ (Py.lower filename)); [discriminate|]).
    discriminate.
Qed.

(** ** Labels and class indices *)

Lemma label_index_in_vocab (k : nat) (c : string) (w : World) :
  chord_vocab !! k = Some c -> label_index c w = (Ok k, w).
Proof.
  intros Hk. unfold label_index.
  assert (Py.mem c chord_vocab = true) as ->.
  { apply mem_true_iff. by eapply list_elem_of_lookup_2. }
  unfold call. by rewrite (index_lookup _ k c chord_vocab_NoDup Hk).
Qed.

Lemma label_index_not_in_vocab (c : string) (w : World) :
  c ∉ chord_vocab -> label_index c w = (Ok 0, w).
Proof.
  intros Hc. unfold label_index. apply mem_false_iff in Hc. by rewrite Hc.
Qed.

(** C5. The label-to-index mapping never raises and does not touch the
    world; a label of the vocabulary gets its position in [chord_vocab],
    every other string gets 0. The comparison is on the exact string. *)
Theorem label_index_total_fixed :
  (forall (k : nat) (c : string) (w : World),
     chord_vocab !! k = Some c -> label_index c w = (Ok k, w)) /\
  (forall (c : string) (w : World),
     c ∉ chord_vocab -> label_index c w = (Ok 0, w)).
Proof. split; [exact label_index_in_vocab | exact label_index_not_in_vocab]. Qed.

(** [sample] with its label replaced. *)
Definition with_chord (c : string) (sample : Sample) : Sample :=
  {| id := id sample; chord := c; instrument := instrument sample;
     quality := quality sample; audio_file := audio_file sample;
     duration := duration sample; features := features sample;
     metadata := metadata sample |}.

(** A sample whose label is outside the vocabulary, relabelled as a
    C major sample; a sample of the vocabulary is kept. *)
Definition relabel_unknown_as_C (sample : Sample) : Sample :=
  if Py.mem (chord sample) chord_vocab then sample else with_chord "C" sample.

Lemma label_index_relabel (sample : Sample) (w : World) :
  label_index (chord (relabel_unknown_as_C sample)) w
  = label_index (chord sample) w.
Proof.
  unfold relabel_unknown_as_C.
  destruct (Py.mem (chord sample) chord_vocab) eqn:E; [done|].
  apply mem_false_iff in E. rewrite (label_index_not_in_vocab _ w E).
  by apply (label_index_in_vocab 0).
Qed.

Lemma features_relabel (sample : Sample) :
  features (relabel_unknown_as_C sample) = features sample.
Proof. unfold relabel_unknown_as_C. by destruct (Py.mem _ _). Qed.

Lemma prepare_sample_relabel acc (sample : Sample) (w : World) :
  prepare_sample np_mean acc (relabel_unknown_as_C sample) w
  = prepare_sample np_mean acc sample w.
Proof.
  unfold prepare_sample. rewrite features_relabel.
  destruct (features sample) as [feats|]; [|done].
  destruct (chroma feats) as [|row rows]; [done|].
  unfold mbind, M_bind, bind.
  destruct (call (np_array (row :: rows)) w) as [[a|e] w1]; [|done].
  destruct (0 <? size_of a); [|done].
  by rewrite label_index_relabel.
Qed.

Lemma for_each_prepare_relabel (samples : list Sample) acc (w : World) :
  for_each (prepare_sample np_mean) acc (map relabel_unknown_as_C samples) w
  = for_each (prepare_sample np_mean) acc samples w.
Proof.
  revert acc w. induction samples as [|s samples IH]; intros acc w; [done|].
  simpl. unfold mbind, M_bind, bind. rewrite prepare_sample_relabel.
  destruct (prepare_sample np_mean acc s w) as [[acc'|e] w1]; [apply IH | done].
Qed.

(** C10. Position 0 of the vocabulary is the label C, which is also the
    index given to every label outside the vocabulary: relabelling all
    such samples as C changes nothing in what [prepare_training_data]
    returns or prints, so the label array cannot tell them apart. *)
Theorem unknown_label_indistinguishable_from_C :
  chord_vocab !! 0 = Some "C" /\
  (forall (c : string) (w : World),
     c ∉ chord_vocab -> label_index c w = label_index "C" w) /\
  (forall (samples : list Sample) (w : World),
     prepare_training_data np_mean (map relabel_unknown_as_C samples) w
     = prepare_training_data np_mean samples w).
Proof.
  split; [done|]. split.
  - intros c w Hc. rewrite (label_index_not_in_vocab c w Hc).
    symmetry. by apply (label_index_in_vocab 0).
  - intros samples w. unfold prepare_training_data.
    unfold mbind, M_bind, bind.
    destruct (print PrintPreparing w) as [[[]|e] w1]; [|done].
    by rewrite for_each_prepare_relabel.
Qed.

(** ** Feature extraction *)

Lemma length_tolist (a : ndarray) : length (tolist a) = shape0 a.
Proof. unfold tolist. by rewrite length_map, length_seq. Qed.

Lemma tolist_row_length (a : ndarray) :
  Forall (fun row : list F => length row = shape1 a) (tolist a).
Proof.
  unfold tolist. apply Forall_forall. intros row Hrow.
  apply list_elem_of_fmap in Hrow as (i & -> & _).
  by rewrite length_map, length_seq.
Qed.

(** The number of frames librosa cuts a signal into with its default
    centred framing: one per hop, and one more. *)
Definition frame_count (audio : Audio) (hop_length : nat) : nat :=
  1 + length audio `div` hop_length.

(** What is assumed of librosa: the shape of what each call returns
    when it returns. The first axis is the bin, the second the frame;
    all calls cut the signal into the same frames. *)
Class LibrosaShapes : Prop := {
  chroma_stft_shape y sr n_fft hop n_chroma a :
    chroma_stft y sr n_fft hop n_chroma = Ok a ->
    shape0 a = n_chroma /\ shape1 a = frame_count y hop;
  melspectrogram_shape y sr n_fft hop n_mels a :
    melspectrogram y sr n_fft hop n_mels = Ok a ->
    shape0 a = n_mels /\ shape1 a = frame_count y hop;
  power_to_db_shape S a :
    power_to_db S = Ok a -> shape0 a = shape0 S /\ shape1 a = shape1 S;
  mfcc_shape y sr n_mfcc n_fft hop a :
    librosa_mfcc y sr n_mfcc n_fft hop = Ok a ->
    shape0 a = n_mfcc /\ shape1 a = frame_count y hop;
  spectral_centroid_shape y sr n_fft hop a :
    librosa_spectral_centroid y sr n_fft hop = Ok a ->
    shape0 a = 1 /\ shape1 a = frame_count y hop;
  rms_shape y frame_length hop a :
    librosa_rms y frame_length hop = Ok a ->
    shape0 a = 1 /\ shape1 a = frame_count y hop;
  zero_crossing_rate_shape y frame_length hop a :
    zero_crossing_rate y frame_length hop = Ok a ->
    shape0 a = 1 /\ shape1 a = frame_count y hop
}.

(** [w'] is [w] except for the random generator and the console. *)
Definition same_env (w w' : World) : Prop :=
  clock w' = clock w /\
  guitarset_audio w' = guitarset_audio w /\
  idmt_guitar w' = idmt_guitar w /\
  (write_fault w' = write_fault w /\
   mkdir_fault w' = mkdir_fault w /\
   open_fault w' = open_fault w) /\
  files w' = files w.

(** [w'] is [w] except for the console. *)
Definition only_printed (w w' : World) : Prop :=
  rng w' = rng w /\ same_env w w'.

Lemma same_env_refl (w : World) : same_env w w.
Proof. by repeat split. Qed.

Lemma same_env_trans (w1 w2 w3 : World) :
  same_env w1 w2 -> same_env w2 w3 -> same_env w1 w3.
Proof. unfold same_env. intuition congruence. Qed.

Lemma only_printed_refl (w : World) : only_printed w w.
Proof. split; [done | apply same_env_refl]. Qed.

Lemma only_printed_trans (w1 w2 w3 : World) :
  only_printed w1 w2 -> only_printed w2 w3 -> only_printed w1 w3.
Proof.
  intros [R12 E12] [R23 E23]. split; [congruence | by eapply same_env_trans].
Qed.

Lemma only_printed_print (ev : Event) (w : World) :
  only_printed w (print ev w).2.
Proof. by repeat split. Qed.

(** [extract_features] never raises, and its result does not depend
    on the world: it only prints when a call fails. *)
Lemma extract_features_total (audio : Audio) :
  exists feats : option Features, forall w : World,
    exists w' : World,
      extract_features audio w = (Ok feats, w') /\ only_printed w w'.
Proof.
  unfold extract_features, try_except, mbind, M_bind, bind, call, mret, M_ret, ret.
  repeat match goal with
  | |- context [match ?r with Ok _ => _ | Raise _ => _ end] =>
      lazymatch r with
      | context [match _ with _ => _ end] => fail
      | _ => destruct r as [?a|?e]
      end
  end;
  eexists; intros w; simpl; eexists; (split; [reflexivity | by repeat split]).
Qed.

(** C4. Under librosa's framing, [extract_features] returns, without
    raising, either the empty dict or a dict whose six arrays all have
    one entry per frame, for the same positive number of frames. *)
Theorem extract_features_all_or_nothing `{!LibrosaShapes}
    (audio : Audio) (w : World) :
  exists w' : World,
    extract_features audio w = (Ok None, w') \/
    exists b : Features,
      extract_features audio w = (Ok (Some b), w') /\
      0 < frame_count audio hop_length /\
      length (chroma b) = frame_count audio hop_length /\
      length (mel_spectrogram b) = frame_count audio hop_length /\
      length (mfcc b) = frame_count audio hop_length /\
      length (spectral_centroid b) = frame_count audio hop_length /\
      length (rms b) = frame_count audio hop_length /\
      length (zcr b) = frame_count audio hop_length.
Proof.
  unfold extract_features, try_except, mbind, M_bind, bind, call, mret, M_ret, ret.
  destruct (chroma_stft _ _ _ _ _) as [a1|e] eqn:E1;
    [|eexists; left; simpl; reflexivity].
  destruct (melspectrogram _ _ _ _ _) as [a2|e] eqn:E2;
    [|eexists; left; simpl; reflexivity].
  destruct (power_to_db a2) as [a3|e] eqn:E3;
    [|eexists; left; simpl; reflexivity].
  destruct (librosa_mfcc _ _ _ _ _) as [a4|e] eqn:E4;
    [|eexists; left; simpl; reflexivity].
  destruct (librosa_spectral_centroid _ _ _ _) as [a5|e] eqn:E5;
    [|eexists; left; simpl; reflexivity].
  destruct (librosa_rms _ _ _) as [a6|e] eqn:E6;
    [|eexists; left; simpl; reflexivity].
  destruct (zero_crossing_rate _ _ _) as [a7|e] eqn:E7;
    [|eexists; left; simpl; reflexivity].
  apply chroma_stft_shape in E1 as [_ E1].
  apply melspectrogram_shape in E2 as [_ E2].
  apply power_to_db_shape in E3 as [_ E3].
  apply mfcc_shape in E4 as [_ E4].
  apply spectral_centroid_shape in E5 as [_ E5].
  apply rms_shape in E6 as [_ E6].
  apply zero_crossing_rate_shape in E7 as [_ E7].
  eexists; right; eexists; split; [reflexivity|]. cbn [chroma mel_spectrogram mfcc spectral_centroid rms zcr].
  rewrite !length_tolist. cbn [transpose shape0].
  unfold frame_count in *. repeat split; try lia; congruence.
Qed.

(** ** Training-set preparation *)

(** The ['chroma'] list of a sample, empty when the sample has no
    features. *)
Definition chroma_of (sample : Sample) : list (list F) :=
  match features sample with
  | Some feats => chroma feats
  | None => []
  end.

(** The guard of the loop of [prepare_training_data]: the sample has a
    non-empty chroma list. *)
Definition usable (sample : Sample) : bool :=
  match chroma_of sample with
  | [] => false
  | _ :: _ => true
  end.

(** Every frame of the sample's chroma has [n_chroma] bins. *)
Definition chroma_well_formed (sample : Sample) : Prop :=
  Forall (fun row : list F => length row = n_chroma) (chroma_of sample).

(** Under librosa's shapes the chroma of an extracted feature dict has
    [n_chroma] bins in every frame: the samples of both adapters are
    well formed. *)
Lemma extract_features_chroma_bins `{!LibrosaShapes}
    (audio : Audio) (w w' : World) (b : Features) :
  extract_features audio w = (Ok (Some b), w') ->
  Forall (fun row : list F => length row = n_chroma) (chroma b).
Proof.
  unfold extract_features, try_except, mbind, M_bind, bind, call, mret, M_ret, ret.
  destruct (chroma_stft _ _ _ _ _) as [a1|e] eqn:E1; [|by intros [= ?]].
  destruct (melspectrogram _ _ _ _ _) as [a2|e]; [|by intros [= ?]].
  destruct (power_to_db a2) as [a3|e]; [|by intros [= ?]].
  destruct (librosa_mfcc _ _ _ _ _) as [a4|e]; [|by intros [= ?]].
  destruct (librosa_spectral_centroid _ _ _ _) as [a5|e]; [|by intros [= ?]].
  destruct (librosa_rms _ _ _) as [a6|e]; [|by intros [= ?]].
  destruct (zero_crossing_rate _ _ _) as [a7|e]; [|by intros [= ?]].
  intros [= <- _]. cbn [chroma].
  apply chroma_stft_shape in E1 as [E1 _]. rewrite <- E1.
  apply (tolist_row_length (transpose a1)).
Qed.

Lemma np_array_rectangular (rows : list (list F)) (cols : nat) :
  rows <> [] ->
  Forall (fun row : list F => length row = cols) rows ->
  exists a : ndarray,
    np_array rows = Ok a /\ shape0 a = length rows /\ shape1 a = cols.
Proof.
  intros Hne Hrows. unfold np_array.
  destruct rows as [|row rows]; [done|].
  assert (length (hd [] (row :: rows)) = cols) as ->.
  { by inversion Hrows. }
  assert (forallb (fun r : list F => Nat.eqb (length r) cols) (row :: rows) = true) as ->.
  { apply forallb_forall. intros r Hr. apply Nat.eqb_eq.
    rewrite Forall_forall in Hrows. apply Hrows. by apply list_elem_of_In. }
  by eexists.
Qed.

Lemma length_np_mean_axis0 (a : ndarray) :
  length (np_mean_axis0 np_mean a) = shape1 a.
Proof. unfold np_mean_axis0. by rewrite length_map, length_seq. Qed.

Lemma label_index_total (c : string) :
  exists i : nat, forall w : World, label_index c w = (Ok i, w).
Proof.
  destruct (decide (c ∈ chord_vocab)) as [Hin|Hout].
  - apply list_elem_of_lookup_1 in Hin as [k Hk].
    exists k. intros w. by apply label_index_in_vocab.
  - exists 0. intros w. by apply label_index_not_in_vocab.
Qed.

(** One iteration on a well-formed sample: a usable sample adds one
    vector of [n_chroma] means and one label index, any other sample
    adds nothing. *)
Lemma prepare_sample_well_formed (sample : Sample) :
  chroma_well_formed sample ->
  exists (v : list F) (i : nat),
    length v = n_chroma /\
    forall acc (w : World),
      prepare_sample np_mean acc sample w
      = (Ok (if usable sample then (acc.1 ++ [v], acc.2 ++ [i]) else acc), w).
Proof.
  unfold chroma_well_formed, usable, chroma_of, prepare_sample.
  destruct (features sample) as [feats|]; [|by exists (replicate n_chroma inhabitant), 0].
  destruct (chroma feats) as [|row rows] eqn:Hc;
    [by exists (replicate n_chroma inhabitant), 0|].
  intros Hwf.
  destruct (np_array_rectangular (row :: rows) n_chroma) as (a & Ha & Ha0 & Ha1);
    [done | done |].
  destruct (label_index_total (chord sample)) as [i Hi].
  exists (np_mean_axis0 np_mean a), i. split.
  - by rewrite length_np_mean_axis0.
  - intros acc w. unfold mbind, M_bind, bind, call. rewrite Ha.
    assert ((0 <? size_of a) = true) as ->.
    { apply Nat.ltb_lt. unfold size_of. rewrite Ha0, Ha1. simpl. unfold n_chroma. lia. }
    by rewrite Hi.
Qed.

(** The loop on well-formed samples: it returns, leaves the world
    alone, and adds one vector and one label per usable sample. *)
Lemma for_each_prepare_well_formed (samples : list Sample) :
  Forall chroma_well_formed samples ->
  exists (vs : list (list F)) (labels : list nat),
    length vs = length (List.filter usable samples) /\
    length labels = length vs /\
    Forall (fun v : list F => length v = n_chroma) vs /\
    forall acc (w : World),
      for_each (prepare_sample np_mean) acc samples w
      = (Ok (acc.1 ++ vs, acc.2 ++ labels), w).
Proof.
  induction 1 as [|s samples Hs _ IH].
  - exists [], []. repeat split; [constructor|].
    intros [fl ll] w. simpl. by rewrite !app_nil_r.
  - destruct IH as (vs & labels & Hlen & Hlab & Hvs & Hrun).
    destruct (prepare_sample_well_formed s Hs) as (v & i & Hv & Hstep).
    simpl. destruct (usable s) eqn:Hu.
    + exists (v :: vs), (i :: labels). simpl. repeat split; [lia | lia | by constructor |].
      intros acc w. unfold mbind, M_bind, bind. rewrite Hstep, Hrun. simpl.
      by rewrite <- !app_assoc.
    + exists vs, labels. repeat split; [done | done | done |].
      intros acc w. simpl. unfold mbind, M_bind, bind. by rewrite Hstep, Hrun.
Qed.

(** C6. On samples whose chroma frames have 12 bins, whatever their
    number of frames: the mean over the time axis of every usable sample
    is a vector of 12 entries; when there is a usable sample,
    [prepare_training_data] returns a matrix with one row per usable
    sample and 12 columns, and as many label indices as rows; when there
    is none it raises ValueError. *)
Theorem prepare_training_data_shapes (samples : list Sample) (w : World) :
  Forall chroma_well_formed samples ->
  Forall (fun sample =>
            usable sample = true ->
            exists a : ndarray,
              np_array (chroma_of sample) = Ok a /\
              length (np_mean_axis0 np_mean a) = n_chroma) samples /\
  exists w' : World,
    match List.filter usable samples with
    | [] =>
        prepare_training_data np_mean samples w
        = (Raise (ValueError "Nenhuma feature válida encontrada"), w')
    | _ :: _ =>
        exists (X : ndarray) (y : list nat),
          prepare_training_data np_mean samples w = (Ok (X, y), w') /\
          shape0 X = length (List.filter usable samples) /\
          shape1 X = n_chroma /\
          length y = length (List.filter usable samples)
    end.
Proof.
  intros Hwf. split.
  - eapply Forall_impl; [exact Hwf|]. intros s Hs Hu.
    destruct (np_array_rectangular (chroma_of s) n_chroma) as (a & Ha & _ & Ha1);
      [|done|].
    + unfold usable in Hu. by destruct (chroma_of s).
    + exists a. split; [done|]. by rewrite length_np_mean_axis0.
  - destruct (for_each_prepare_well_formed samples Hwf)
      as (vs & labels & Hlen & Hlab & Hvs & Hrun).
    unfold prepare_training_data, mbind, M_bind, bind.
    destruct (print PrintPreparing w) as [[[]|e] w1] eqn:Hp; [|discriminate Hp].
    rewrite Hrun. simpl.
    destruct (List.filter usable samples) as [|u us] eqn:Hf at 1.
    + rewrite Hf in Hlen. destruct vs; [|done]. eexists. reflexivity.
    + destruct vs as [|v vs]; [by rewrite Hf in Hlen|].
      destruct (np_array_rectangular (v :: vs) n_chroma) as (X & HX & HX0 & HX1);
        [done | done |].
      unfold call. rewrite HX. simpl.
      eexists. exists X, labels. split; [reflexivity|].
      split; [by rewrite HX0, Hlen|]. split; [done | by rewrite Hlab, Hlen].
Qed.

(** ** Corpus persistence *)

(** [w'] is [w] except for the output files and the pending fault. *)
Definition only_wrote (w w' : World) : Prop :=
  rng w' = rng w /\
  clock w' = clock w /\
  guitarset_audio w' = guitarset_audio w /\
  idmt_guitar w' = idmt_guitar w /\
  (mkdir_fault w' = mkdir_fault w /\ open_fault w' = open_fault w) /\
  stdout w' = stdout w.

Lemma json_encode_Ok (c c' : Chunk) : json_encode c = Ok c' -> c' = c.
Proof.
  destruct c; simpl; try by intros [= <-].
  destruct (bool_decide _); [by intros [= <-] | done].
Qed.

(** One round: the piece is appended, or an exception leaves the
    world as it is. *)
Lemma write_chunk_step (output_file : string) (c : Chunk) (written : list Chunk)
    (w : World) :
  files w !! output_file = Some (JsonFile written) ->
  (exists e : exn, write_chunk output_file tt c w = (Raise e, w)) \/
  (exists w' : World,
     write_chunk output_file tt c w = (Ok tt, w') /\
     files w' = <[output_file := JsonFile (written ++ [c])]> (files w) /\
     only_wrote w w').
Proof.
  intros Hw. unfold write_chunk, mbind, M_bind, bind, call.
  destruct (json_encode c) as [c'|e] eqn:Hc; [|left; by eexists].
  apply json_encode_Ok in Hc as ->. unfold fp_write. rewrite Hw.
  destruct (write_fault w) as [[|n]|]; [left; by eexists | right | right];
    (eexists; split; [reflexivity|]; by repeat split).
Qed.

(** The loop of [json.dump] on a file that holds [written]: pieces are
    appended in order; when the loop stops with an exception the file
    keeps what was written before it. *)
Lemma json_dump_prefix (output_file : string) (chunks written : list Chunk) (w : World) :
  files w !! output_file = Some (JsonFile written) ->
  exists (r : result unit) (k : nat) (w' : World),
    for_each (write_chunk output_file) tt chunks w = (r, w') /\
    files w' = <[output_file := JsonFile (written ++ take k chunks)]> (files w) /\
    (r = Ok tt -> take k chunks = chunks) /\
    only_wrote w w'.
Proof.
  revert written w. induction chunks as [|c chunks IH]; intros written w Hw.
  - exists (Ok tt), 0, w. split; [done|]. split; [|by repeat split].
    by rewrite app_nil_r, insert_id.
  - cbn [for_each]. unfold mbind, M_bind, bind.
    destruct (write_chunk_step output_file c written w Hw)
      as [[e ->] | (w1 & -> & Hfiles1 & Hframe1)].
    + exists (Raise e), 0, w. split; [done|]. split; [|by repeat split].
      by rewrite app_nil_r, insert_id.
    + destruct (IH (written ++ [c]) w1) as (r & k & w' & -> & Hfiles & Hr & Hframe).
      { by rewrite Hfiles1, lookup_insert_eq. }
      exists r, (S k), w'. split; [done|].
      split; [by rewrite Hfiles, Hfiles1, insert_insert_eq, <- app_assoc|].
      split; [intros ->; simpl; by rewrite Hr|].
      unfold only_wrote in *. intuition congruence.
Qed.

(** The metadata block [save_processed_data] builds for [samples] at
    time [now]. *)
Definition corpus_metadata_of (now : string) (samples : list Sample) : Metadata :=
  {| total_samples := length samples;
     unique_chords := size (list_to_set (map chord samples) : gset string);
     chord_distribution := np_unique_counts (map chord samples);
     instruments := list_to_set (map instrument samples);
     qualities := list_to_set (map quality samples);
     processing_date := now;
     feature_config :=
       {| cfg_sample_rate := sample_rate;
          cfg_hop_length := hop_length;
          cfg_n_fft := n_fft;
          cfg_n_mels := n_mels;
          cfg_n_chroma := n_chroma |} |}.

Lemma save_processed_data_unfold (samples : list Sample) (output_file : string) (w : World) :
  save_processed_data samples output_file w
  = (print (PrintSaving (length samples) output_file);;
     mkdir_parent output_file;;
     open_w output_file;;
     json_dump (corpus_metadata_of (clock w) samples) samples output_file;;
     print (PrintSaved output_file)) w.
Proof.
  unfold save_processed_data, mbind, M_bind, bind, mkdir_parent.
  cbn [print mkdir_fault set_stdout].
  by destruct (mkdir_fault w output_file).
Qed.

(** When the parent directory cannot be made, or the destination
    cannot be opened, the exception leaves [save_processed_data] after
    its first message, and no file has been touched. *)
Lemma save_processed_data_refused
    (samples : list Sample) (output_file : string) (e : exn) (w : World) :
  mkdir_fault w output_file = Some e \/
  (mkdir_fault w output_file = None /\ open_fault w output_file = Some e) ->
  save_processed_data samples output_file w
  = (Raise e, set_stdout (stdout w ++ [PrintSaving (length samples) output_file]) w).
Proof.
  rewrite save_processed_data_unfold.
  unfold mbind, M_bind, bind, mkdir_parent, open_w.
  cbn [print mkdir_fault set_stdout].
  intros [Hmkdir | [Hmkdir Hopen]]; rewrite Hmkdir; [done|].
  cbn [open_fault set_stdout]. by rewrite Hopen.
Qed.

(** [save_processed_data] when the destination can be opened: the file
    is cut, then filled in order, as far as [json.dump] gets. *)
Lemma save_processed_data_run (samples : list Sample) (output_file : string) (w : World) :
  mkdir_fault w output_file = None ->
  open_fault w output_file = None ->
  exists (r : result unit) (k : nat) (w' : World),
    save_processed_data samples output_file w = (r, w') /\
    files w'
    = <[output_file :=
          JsonFile (take k (json_chunks (corpus_metadata_of (clock w) samples) samples))]>
        (files w) /\
    (r = Ok tt ->
     take k (json_chunks (corpus_metadata_of (clock w) samples) samples)
     = json_chunks (corpus_metadata_of (clock w) samples) samples) /\
    rng w' = rng w.
Proof.
  intros Hmkdir Hopen. rewrite save_processed_data_unfold.
  unfold json_dump, mbind, M_bind, bind, mkdir_parent, open_w.
  cbn [print mkdir_fault set_stdout]. rewrite Hmkdir.
  cbn [open_fault set_stdout]. rewrite Hopen.
  set (m := corpus_metadata_of _ _).
  set (w1 := set_files _ _).
  destruct (json_dump_prefix output_file (json_chunks m samples) [] w1)
    as (r & k & w' & -> & Hfiles & Hr & Hframe).
  { subst w1. simpl. by rewrite lookup_insert_eq. }
  subst w1. destruct Hframe as (Hrng & _). cbn in Hfiles, Hrng.
  rewrite insert_insert_eq in Hfiles.
  destruct r as [[]|e]; eexists _, k, _; (split; [reflexivity|]); cbn;
    (split; [exact Hfiles|]); (split; [|exact Hrng]); [exact Hr | done].
Qed.

Lemma np_unique_counts_cons (c : string) (chords : list string) :
  np_unique_counts (c :: chords) <> ∅.
Proof. unfold np_unique_counts. simpl. apply insert_non_empty. Qed.

(** On a non-empty list of samples, when the destination can be opened
    and no write fails, the encoder stops [save_processed_data] at the
    histogram: TypeError leaves the function and the file holds the
    head of the metadata block. *)
Lemma save_processed_data_nonempty (samples : list Sample) (output_file : string) (w : World) :
  samples <> [] ->
  mkdir_fault w output_file = None ->
  open_fault w output_file = None ->
  write_fault w = None ->
  exists w' : World,
    save_processed_data samples output_file w
    = (Raise (Raised "TypeError" "Object of type int64 is not JSON serializable"), w') /\
    files w'
    = <[output_file :=
          JsonFile [ChunkHead (length samples)
                      (size (list_to_set (map chord samples) : gset string))]]>
        (files w) /\
    stdout w' = stdout w ++ [PrintSaving (length samples) output_file].
Proof.
  intros Hne Hmkdir Hopen Hfault. destruct samples as [|s0 rest]; [done|].
  rewrite save_processed_data_unfold.
  unfold json_dump, json_chunks. cbn [app for_each].
  unfold write_chunk, mbind, M_bind, bind, call, fp_write, print, open_w, mkdir_parent.
  cbn [mkdir_fault set_stdout]. rewrite Hmkdir.
  cbn [open_fault set_stdout]. rewrite Hopen.
  cbn [json_encode write_fault set_files set_stdout files].
  rewrite Hfault.
  cbn [fmap option_fmap option_map write_fault set_write_fault set_files files].
  cbn [corpus_metadata_of chord_distribution total_samples unique_chords].
  rewrite bool_decide_eq_false_2 by apply np_unique_counts_cons.
  eexists. split; [reflexivity|]. cbn.
  by rewrite lookup_insert_eq, insert_insert_eq.
Qed.

(** The sample count a stored document claims, when it has got as far
    as the head of its metadata block. *)
Definition claimed_total (chunks : list Chunk) : option nat :=
  match chunks with
  | ChunkHead total _ :: _ => Some total
  | _ => None
  end.

(** The samples a stored document holds. *)
Fixpoint stored_samples (chunks : list Chunk) : list Sample :=
  match chunks with
  | [] => []
  | ChunkSample s :: rest => s :: stored_samples rest
  | _ :: rest => stored_samples rest
  end.

(** The count a document claims is the length of its sample list. *)
Definition consistent_document (chunks : list Chunk) : Prop :=
  forall n : nat, claimed_total chunks = Some n -> n = length (stored_samples chunks).

Lemma stored_samples_json_chunks (m : Metadata) (samples : list Sample) :
  stored_samples (json_chunks m samples) = samples.
Proof.
  unfold json_chunks. cbn [app stored_samples].
  induction samples as [|s samples IH]; [done|]. simpl. by rewrite IH.
Qed.

(** On a non-empty list of samples [save_processed_data] never
    returns: the parent directory cannot be made, the destination
    cannot be opened, the first write fails, or the encoder stops at
    the histogram. No file has been touched, or the destination holds
    at most the head of the metadata block, and no sample. *)
Lemma save_processed_data_nonempty_raises
    (samples : list Sample) (output_file : string) (w : World) :
  samples <> [] ->
  exists (e : exn) (w' : World),
    save_processed_data samples output_file w = (Raise e, w') /\
    stdout w' = stdout w ++ [PrintSaving (length samples) output_file] /\
    (files w' = files w \/
     exists written : list Chunk,
       files w' = <[output_file := JsonFile written]> (files w) /\
       length written <= 1 /\ stored_samples written = []).
Proof.
  intros Hne.
  destruct (mkdir_fault w output_file) as [e|] eqn:Hmkdir;
    [|destruct (open_fault w output_file) as [e|] eqn:Hopen].
  - eexists e, _. split; [apply save_processed_data_refused; by left|].
    split; [done | by left].
  - eexists e, _. split; [apply save_processed_data_refused; by right|].
    split; [done | by left].
  - destruct samples as [|s0 rest]; [done|].
    rewrite save_processed_data_unfold.
    unfold json_dump, json_chunks. cbn [app for_each].
    unfold write_chunk, mbind, M_bind, bind, call, fp_write, print, open_w, mkdir_parent.
    cbn [mkdir_fault set_stdout]. rewrite Hmkdir.
    cbn [open_fault set_stdout]. rewrite Hopen.
    cbn [json_encode write_fault set_files set_stdout files].
    destruct (write_fault w) as [[|n]|];
      cbn [fmap option_fmap option_map write_fault set_write_fault set_files files
           corpus_metadata_of chord_distribution total_samples unique_chords].
    + eexists _, _. split; [reflexivity|]. cbn. split; [done|].
      right. exists []. split; [done|]. split; [cbn; lia | done].
    + rewrite bool_decide_eq_false_2 by apply np_unique_counts_cons.
      eexists _, _. split; [reflexivity|]. cbn. split; [done|].
      right. eexists [_]. rewrite lookup_insert_eq, insert_insert_eq.
      split; [done|]. split; [cbn; lia | done].
    + rewrite bool_decide_eq_false_2 by apply np_unique_counts_cons.
      eexists _, _. split; [reflexivity|]. cbn. split; [done|].
      right. eexists [_]. rewrite lookup_insert_eq, insert_insert_eq.
      split; [done|]. split; [cbn; lia | done].
Qed.

(** C2, as the code has it. [save_processed_data] writes in place.
    When the parent directory cannot be made or the destination cannot
    be opened, the exception leaves the function and no file has been
    touched: the destination keeps what it held. Otherwise the
    destination is cut to length zero and the document is streamed to it
    in order. When the function returns, the destination holds the whole
    document, whose claimed count is the length of its sample list. When
    an exception stops [json.dump], it leaves the function, and the
    destination holds the pieces written before it. *)
Theorem save_processed_data_in_place
    (samples : list Sample) (output_file : string) (w : World) :
  exists (m : Metadata) (r : result unit) (w' : World),
    save_processed_data samples output_file w = (r, w') /\
    total_samples m = length samples /\
    match mkdir_fault w output_file, open_fault w output_file with
    | Some e, _ | None, Some e => r = Raise e /\ files w' = files w
    | None, None =>
        exists k : nat,
          files w' = <[output_file := JsonFile (take k (json_chunks m samples))]> (files w) /\
          (r = Ok tt ->
           take k (json_chunks m samples) = json_chunks m samples /\
           consistent_document (json_chunks m samples))
    end.
Proof.
  exists (corpus_metadata_of (clock w) samples).
  destruct (mkdir_fault w output_file) as [e|] eqn:Hmkdir;
    [|destruct (open_fault w output_file) as [e|] eqn:Hopen].
  - eexists _, _. split; [apply (save_processed_data_refused _ _ e); by left|].
    by repeat split.
  - eexists _, _. split; [apply (save_processed_data_refused _ _ e); by right|].
    by repeat split.
  - destruct (save_processed_data_run samples output_file w Hmkdir Hopen)
      as (r & k & w' & Hrun & Hfiles & Hr & _).
    exists r, w'. split; [done|]. split; [done|]. exists k. split; [done|].
    intros Hok. split; [by apply Hr|].
    intros n Hn. rewrite stored_samples_json_chunks. cbn in Hn. congruence.
Qed.

(** ** The adapters *)

Lemma infer_chord_same_env (filename : string) (w : World) :
  exists (c : string) (w' : World),
    infer_chord_from_filename filename w = (Ok c, w') /\ same_env w w'.
Proof.
  unfold infer_chord_from_filename.
  destruct (first_match _ _) as [c|].
  - exists c, w. split; [done | apply same_env_refl].
  - eexists _, _. split; [reflexivity | by repeat split].
Qed.

(** The sample of one GuitarSet file does not depend on the world. *)
Lemma process_guitarset_file_run (audio_file : AudioFile) :
  exists new : list Sample, forall (samples : list Sample) (w : World),
    exists w' : World,
      process_guitarset_file samples audio_file w = (Ok (samples ++ new), w') /\
      only_printed w w'.
Proof.
  unfold process_guitarset_file, try_except.
  destruct (Py.split "_" (stem audio_file)) as [|player [|chord [|style rest]]];
    try (exists []; intros samples w; exists w; rewrite app_nil_r;
         split; [reflexivity | apply only_printed_refl]).
  unfold mbind, M_bind, bind, call.
  destruct (decoded audio_file) as [audio|e].
  - destruct (extract_features_total audio) as [feats Hfeats].
    eexists [_]. intros samples w.
    destruct (Hfeats w) as (w1 & -> & Hw1).
    match goal with |- context [if ?b then _ else _] => destruct b end; cbn.
    + eexists. split; [reflexivity|].
      eapply only_printed_trans; [exact Hw1 | apply only_printed_print].
    + eexists. split; [reflexivity | exact Hw1].
  - exists []. intros samples w. cbn. rewrite app_nil_r.
    eexists. split; [reflexivity | by repeat split].
Qed.

Lemma for_each_guitarset_run (wavs : list AudioFile) :
  exists new : list Sample, forall (samples : list Sample) (w : World),
    exists w' : World,
      for_each process_guitarset_file samples wavs w = (Ok (samples ++ new), w') /\
      only_printed w w'.
Proof.
  induction wavs as [|af wavs [rest IH]].
  - exists []. intros samples w. exists w. rewrite app_nil_r.
    split; [done | apply only_printed_refl].
  - destruct (process_guitarset_file_run af) as [new Hnew].
    exists (new ++ rest). intros samples w. cbn [for_each].
    unfold mbind, M_bind, bind.
    destruct (Hnew samples w) as (w1 & -> & Hw1).
    destruct (IH (samples ++ new) w1) as (w' & -> & Hw').
    exists w'. rewrite app_assoc. split; [done | by eapply only_printed_trans].
Qed.

(** [process_guitarset] returns the same samples in every world with
    the same GuitarSet directory. *)
Lemma process_guitarset_run (dir : option (list AudioFile)) :
  exists samples : list Sample, forall w : World,
    guitarset_audio w = dir ->
    exists w' : World,
      process_guitarset w = (Ok samples, w') /\ only_printed w w'.
Proof.
  unfold process_guitarset, mbind, M_bind, bind. cbn [print gets set_stdout guitarset_audio].
  destruct dir as [wavs|].
  - destruct (for_each_guitarset_run wavs) as [new Hnew]. exists new.
    intros w ->.
    destruct (Hnew [] (set_stdout (stdout w ++ [PrintGuitarSetStart]) w))
      as (w1 & -> & Hw1).
    cbn. eexists. split; [reflexivity|].
    eapply only_printed_trans; [|apply only_printed_print].
    eapply only_printed_trans; [|exact Hw1]. by repeat split.
  - exists []. intros w ->. cbn. eexists. split; [reflexivity | by repeat split].
Qed.

Lemma only_printed_same_env (w w' : World) : only_printed w w' -> same_env w w'.
Proof. by intros [_ H]. Qed.

(** One IDMT file gives one sample when it can be loaded and none when
    it cannot, whatever label is inferred or drawn. *)
Lemma process_idmt_file_count (audio_file : AudioFile) :
  exists n : nat, forall (samples : list Sample) (w : World),
    exists (new : list Sample) (w' : World),
      process_idmt_file samples audio_file w = (Ok (samples ++ new), w') /\
      length new = n /\ same_env w w'.
Proof.
  unfold process_idmt_file, try_except, mbind, M_bind, bind, call.
  destruct (decoded audio_file) as [audio|e].
  - destruct (extract_features_total audio) as [feats Hfeats].
    exists 1. intros samples w.
    destruct (infer_chord_same_env (stem audio_file) w) as (c & w0 & -> & Hw0).
    destruct (Hfeats w0) as (w1 & -> & Hw1%only_printed_same_env).
    match goal with |- context [if ?b then _ else _] => destruct b end; cbn.
    + eexists [_], _. split; [reflexivity|]. split; [done|].
      eapply same_env_trans; [exact Hw0|].
      eapply same_env_trans; [exact Hw1 | by repeat split].
    + eexists [_], _. split; [reflexivity|]. split; [done|].
      by eapply same_env_trans.
  - exists 0. intros samples w.
    destruct (infer_chord_same_env (stem audio_file) w) as (c & w0 & -> & Hw0).
    cbn. eexists [], _. rewrite app_nil_r. split; [reflexivity|]. split; [done|].
    eapply same_env_trans; [exact Hw0 | by repeat split].
Qed.

(** The name of the file matches a pattern of the table. *)
Definition named (audio_file : AudioFile) : Prop :=
  is_Some (first_match chord_mappings (Py.lower (stem audio_file))).

(** The sample of an IDMT file whose name matches a pattern does not
    depend on the world, and the generator is not used. *)
Lemma process_idmt_file_named (audio_file : AudioFile) :
  named audio_file ->
  exists new : list Sample, forall (samples : list Sample) (w : World),
    exists w' : World,
      process_idmt_file samples audio_file w = (Ok (samples ++ new), w') /\
      only_printed w w'.
Proof.
  intros [c Hc].
  unfold process_idmt_file, try_except, mbind, M_bind, bind, call,
    infer_chord_from_filename.
  rewrite Hc. cbn [mret M_ret ret].
  destruct (decoded audio_file) as [audio|e].
  - destruct (extract_features_total audio) as [feats Hfeats].
    eexists [_]. intros samples w.
    destruct (Hfeats w) as (w1 & -> & Hw1).
    match goal with |- context [if ?b then _ else _] => destruct b end; cbn.
    + eexists. split; [reflexivity|].
      eapply only_printed_trans; [exact Hw1 | apply only_printed_print].
    + eexists. split; [reflexivity | exact Hw1].
  - exists []. intros samples w. cbn. rewrite app_nil_r.
    eexists. split; [reflexivity | by repeat split].
Qed.

Lemma for_each_idmt_count (wavs : list AudioFile) :
  exists n : nat, forall (samples : list Sample) (w : World),
    exists (new : list Sample) (w' : World),
      for_each process_idmt_file samples wavs w = (Ok (samples ++ new), w') /\
      length new = n /\ same_env w w'.
Proof.
  induction wavs as [|af wavs [m IH]].
  - exists 0. intros samples w. exists [], w. rewrite app_nil_r.
    split; [done|]. split; [done | apply same_env_refl].
  - destruct (process_idmt_file_count af) as [n Hn].
    exists (n + m). intros samples w. cbn [for_each].
    unfold mbind, M_bind, bind.
    destruct (Hn samples w) as (new & w1 & -> & Hlen & Hw1).
    destruct (IH (samples ++ new) w1) as (rest & w' & -> & Hrest & Hw').
    exists (new ++ rest), w'. rewrite app_assoc, length_app.
    split; [done|]. split; [lia | by eapply same_env_trans].
Qed.

Lemma for_each_idmt_named (wavs : list AudioFile) :
  Forall named wavs ->
  exists new : list Sample, forall (samples : list Sample) (w : World),
    exists w' : World,
      for_each process_idmt_file samples wavs w = (Ok (samples ++ new), w') /\
      only_printed w w'.
Proof.
  induction 1 as [|af wavs Haf _ [rest IH]].
  - exists []. intros samples w. exists w. rewrite app_nil_r.
    split; [done | apply only_printed_refl].
  - destruct (process_idmt_file_named af Haf) as [new Hnew].
    exists (new ++ rest). intros samples w. cbn [for_each].
    unfold mbind, M_bind, bind.
    destruct (Hnew samples w) as (w1 & -> & Hw1).
    destruct (IH (samples ++ new) w1) as (w' & -> & Hw').
    exists w'. rewrite app_assoc. split; [done | by eapply only_printed_trans].
Qed.

(** Every file of the directory has a name that matches a pattern. *)
Definition all_named (dir : option (list AudioFile)) : Prop :=
  match dir with
  | Some wavs => Forall named wavs
  | None => True
  end.

Lemma process_idmt_guitar_count (dir : option (list AudioFile)) :
  exists n : nat, forall w : World,
    idmt_guitar w = dir ->
    exists (samples : list Sample) (w' : World),
      process_idmt_guitar w = (Ok samples, w') /\
      length samples = n /\ same_env w w'.
Proof.
  unfold process_idmt_guitar, mbind, M_bind, bind. cbn [print gets set_stdout idmt_guitar].
  destruct dir as [wavs|].
  - destruct (for_each_idmt_count wavs) as [n Hn]. exists n.
    intros w ->.
    destruct (Hn [] (set_stdout (stdout w ++ [PrintIdmtStart]) w))
      as (new & w1 & -> & Hlen & Hw1).
    cbn. eexists _, _. split; [reflexivity|]. split; [done|].
    eapply same_env_trans; [|by repeat split].
    eapply same_env_trans; [|exact Hw1]. by repeat split.
  - exists 0. intros w ->. cbn. eexists _, _.
    split; [reflexivity|]. split; [done | by repeat split].
Qed.

Lemma process_idmt_guitar_named (dir : option (list AudioFile)) :
  all_named dir ->
  exists samples : list Sample, forall w : World,
    idmt_guitar w = dir ->
    exists w' : World,
      process_idmt_guitar w = (Ok samples, w') /\ only_printed w w'.
Proof.
  unfold process_idmt_guitar, mbind, M_bind, bind. cbn [print gets set_stdout idmt_guitar].
  destruct dir as [wavs|]; intros Hnamed.
  - destruct (for_each_idmt_named wavs Hnamed) as [new Hnew]. exists new.
    intros w ->.
    destruct (Hnew [] (set_stdout (stdout w ++ [PrintIdmtStart]) w))
      as (w1 & -> & Hw1).
    cbn. eexists. split; [reflexivity|].
    eapply only_printed_trans; [|apply only_printed_print].
    eapply only_printed_trans; [|exact Hw1]. by repeat split.
  - exists []. intros w ->. cbn. eexists. split; [reflexivity | by repeat split].
Qed.

(** ** [main] in two steps *)

(** The statements of [main] up to the value of [all_samples]. *)
Definition collect_samples (args : Args) : M (list Sample) :=
  print PrintBanner;;
  guitarset_samples ←
    (if Py.mem "guitarset" (datasets args) then process_guitarset else mret []);
  idmt_samples ←
    (if Py.mem "idmt-guitar" (datasets args) then process_idmt_guitar else mret []);
  mret (guitarset_samples ++ idmt_samples).

Definition json_path (args : Args) : string :=
  output_dir args +:+ "/musictutor_training_data.json".

Definition npz_path (args : Args) : string :=
  output_dir args +:+ "/training_data.npz".

(** The [try] statement of [main]: the training data are prepared and
    saved, or the failure is reported. *)
Definition training_step (args : Args) (all_samples : list Sample) : M unit :=
  try_except
    (Xy ← prepare_training_data np_mean all_samples;
     np_savez (npz_path args) Xy.1 Xy.2 chord_vocab;;
     print (PrintTrainingSaved (json_path args) (npz_path args)))
    (fun e => print (PrintTrainingError e)).

(** The statements of [main] from [if not all_samples] on. *)
Definition persist (args : Args) (all_samples : list Sample) : M unit :=
  match all_samples with
  | [] => print PrintNoDataset
  | _ =>
      save_processed_data all_samples (json_path args);;
      training_step args all_samples;;
      print PrintNextSteps
  end.

Lemma main_split (args : Args) (w : World) :
  main np_mean args w = (all_samples ← collect_samples args; persist args all_samples) w.
Proof.
  unfold main, collect_samples, persist, training_step, json_path, npz_path,
    mbind, M_bind, bind.
  cbn [print mret M_ret ret].
  destruct (Py.mem "guitarset" (datasets args));
    destruct (Py.mem "idmt-guitar" (datasets args));
    unfold mret, M_ret, ret;
    repeat match goal with
    | |- context [process_guitarset ?w0] =>
        destruct (process_guitarset w0) as [[?|?] ?]
    | |- context [process_idmt_guitar ?w0] =>
        destruct (process_idmt_guitar w0) as [[?|?] ?]
    end;
    reflexivity.
Qed.

(** The adapters never raise and never touch the output files; the
    number of samples is fixed by the two directories. *)
Lemma collect_samples_count (args : Args) (gs idmt : option (list AudioFile)) :
  exists n : nat, forall w : World,
    guitarset_audio w = gs -> idmt_guitar w = idmt ->
    exists (all_samples : list Sample) (w' : World),
      collect_samples args w = (Ok all_samples, w') /\
      length all_samples = n /\ same_env w w'.
Proof.
  destruct (process_guitarset_run gs) as [gsamples Hgs].
  destruct (process_idmt_guitar_count idmt) as [k Hidmt].
  unfold collect_samples, mbind, M_bind, bind. cbn [print].
  destruct (Py.mem "guitarset" (datasets args));
    destruct (Py.mem "idmt-guitar" (datasets args)).
  - exists (length gsamples + k). intros w Hg Hi.
    destruct (Hgs (set_stdout (stdout w ++ [PrintBanner]) w) Hg)
      as (w1 & -> & [_ Hw1]).
    destruct (Hidmt w1) as (isamples & w2 & -> & Hlen & Hw2).
    { destruct Hw1 as (_ & _ & -> & _). exact Hi. }
    eexists _, _. split; [reflexivity|]. rewrite length_app.
    split; [lia|]. eapply same_env_trans; [|exact Hw2].
    eapply same_env_trans; [|exact Hw1]. by repeat split.
  - exists (length gsamples). intros w Hg Hi.
    destruct (Hgs (set_stdout (stdout w ++ [PrintBanner]) w) Hg)
      as (w1 & -> & [_ Hw1]).
    eexists _, _. split; [reflexivity|]. rewrite app_nil_r.
    split; [done|]. eapply same_env_trans; [|exact Hw1]. by repeat split.
  - exists k. intros w Hg Hi.
    destruct (Hidmt (set_stdout (stdout w ++ [PrintBanner]) w) Hi)
      as (isamples & w2 & Hrun & Hlen & Hw2).
    cbn [mret M_ret ret]. rewrite Hrun.
    eexists _, _. split; [reflexivity|].
    split; [done|]. eapply same_env_trans; [|exact Hw2]. by repeat split.
  - exists 0. intros w Hg Hi. eexists _, _. split; [reflexivity|].
    split; [done | by repeat split].
Qed.

(** When every IDMT name matches a pattern, the samples themselves are
    fixed by the two directories. *)
Lemma collect_samples_named (args : Args) (gs idmt : option (list AudioFile)) :
  all_named idmt ->
  exists all_samples : list Sample, forall w : World,
    guitarset_audio w = gs -> idmt_guitar w = idmt ->
    exists w' : World,
      collect_samples args w = (Ok all_samples, w') /\ same_env w w'.
Proof.
  intros Hnamed.
  destruct (process_guitarset_run gs) as [gsamples Hgs].
  destruct (process_idmt_guitar_named idmt Hnamed) as [isamples Hidmt].
  unfold collect_samples, mbind, M_bind, bind. cbn [print].
  destruct (Py.mem "guitarset" (datasets args));
    destruct (Py.mem "idmt-guitar" (datasets args)).
  - exists (gsamples ++ isamples). intros w Hg Hi.
    destruct (Hgs (set_stdout (stdout w ++ [PrintBanner]) w) Hg)
      as (w1 & -> & [_ Hw1]).
    destruct (Hidmt w1) as (w2 & -> & [_ Hw2]).
    { destruct Hw1 as (_ & _ & -> & _). exact Hi. }
    eexists. split; [reflexivity|]. eapply same_env_trans; [|exact Hw2].
    eapply same_env_trans; [|exact Hw1]. by repeat split.
  - exists (gsamples ++ []). intros w Hg Hi.
    destruct (Hgs (set_stdout (stdout w ++ [PrintBanner]) w) Hg)
      as (w1 & -> & [_ Hw1]).
    eexists. split; [reflexivity|].
    eapply same_env_trans; [|exact Hw1]. by repeat split.
  - exists ([] ++ isamples). intros w Hg Hi.
    destruct (Hidmt (set_stdout (stdout w ++ [PrintBanner]) w) Hi)
      as (w2 & Hrun & [_ Hw2]).
    cbn [mret M_ret ret]. rewrite Hrun.
    eexists. split; [reflexivity|].
    eapply same_env_trans; [|exact Hw2]. by repeat split.
  - exists ([] ++ []). intros w Hg Hi. eexists. split; [reflexivity|].
    by repeat split.
Qed.

Lemma json_npz_paths_differ (dir : string) :
  dir +:+ "/musictutor_training_data.json" <> dir +:+ "/training_data.npz".
Proof. induction dir as [|c dir IH]; simpl; [done | by intros [= H]]. Qed.

(** The loop of [prepare_training_data] leaves the world as it is. *)
Lemma for_each_prepare_pure (samples : list Sample) acc (w : World) :
  exists r, for_each (prepare_sample np_mean) acc samples w = (r, w).
Proof.
  revert acc. induction samples as [|s samples IH]; intros acc; [by eexists|].
  cbn [for_each]. unfold mbind, M_bind, bind.
  assert (exists r, prepare_sample np_mean acc s w = (r, w)) as [[acc'|e] ->].
  { unfold prepare_sample, mbind, M_bind, bind, call, label_index.
    destruct (features s) as [feats|]; [|by eexists].
    destruct (chroma feats) as [|row rows]; [by eexists|].
    destruct (np_array (row :: rows)) as [a|e]; [|by eexists].
    destruct (0 <? size_of a); [|by eexists].
    destruct (Py.mem (chord s) chord_vocab); [|by eexists].
    destruct (Py.index (chord s) chord_vocab); by eexists. }
  - apply IH.
  - by eexists.
Qed.

(** [prepare_training_data] only prints. *)
Lemma prepare_training_data_only_prints (samples : list Sample) (w : World) :
  exists r (w' : World),
    prepare_training_data np_mean samples w = (r, w') /\ only_printed w w'.
Proof.
  unfold prepare_training_data, mbind, M_bind, bind. cbn [print].
  set (w1 := set_stdout _ w).
  destruct (for_each_prepare_pure samples ([], []) w1) as [[acc|e] ->].
  - destruct acc.1 as [|v vs].
    + eexists _, _. split; [reflexivity | by repeat split].
    + unfold call. destruct (np_array (v :: vs)) as [X|e].
      * eexists _, _. split; [reflexivity | by repeat split].
      * eexists _, _. split; [reflexivity | by repeat split].
  - eexists _, _. split; [reflexivity | by repeat split].
Qed.

(** Without a usable sample [prepare_training_data] raises, after its
    first message. *)
Lemma prepare_training_data_unusable (samples : list Sample) (w : World) :
  Forall (fun s => usable s = false) samples ->
  prepare_training_data np_mean samples w
  = (Raise (ValueError "Nenhuma feature válida encontrada"),
     set_stdout (stdout w ++ [PrintPreparing]) w).
Proof.
  intros Hun.
  assert (forall acc (w0 : World),
            for_each (prepare_sample np_mean) acc samples w0 = (Ok acc, w0)) as Hloop.
  { induction Hun as [|s samples Hs _ IH]; intros acc w0; [done|].
    cbn [for_each]. unfold mbind, M_bind, bind.
    assert (prepare_sample np_mean acc s w0 = (Ok acc, w0)) as ->; [|apply IH].
    unfold usable, chroma_of in Hs. unfold prepare_sample.
    destruct (features s) as [feats|]; [|done]. by destruct (chroma feats). }
  unfold prepare_training_data, mbind, M_bind, bind. cbn [print].
  by rewrite Hloop.
Qed.

(** The [try] statement of [main] on its own. When no sample has a
    non-empty chroma, [prepare_training_data] raises ValueError after
    its first message, and the statement reports the failure and ends
    normally: no file is written or changed by it. *)
Lemma training_step_reports_empty_set
    (args : Args) (all_samples : list Sample) (w : World) :
  Forall (fun s => usable s = false) all_samples ->
  prepare_training_data np_mean all_samples w
  = (Raise (ValueError "Nenhuma feature válida encontrada"),
     set_stdout (stdout w ++ [PrintPreparing]) w) /\
  exists w' : World,
    training_step args all_samples w = (Ok tt, w') /\
    files w' = files w /\
    stdout w'
    = stdout w ++
      [ PrintPreparing;
        PrintTrainingError (ValueError "Nenhuma feature válida encontrada") ].
Proof.
  intros Hun. split; [by apply prepare_training_data_unusable|].
  unfold training_step, try_except, mbind, M_bind, bind.
  rewrite (prepare_training_data_unusable all_samples w Hun).
  cbn. eexists. split; [reflexivity|]. split; [done|].
  cbn. by rewrite <- app_assoc.
Qed.

(** The [try] statement of [main] never raises and never touches the
    corpus document, whatever the samples. *)
Lemma training_step_keeps_corpus (args : Args) (all_samples : list Sample) (w : World) :
  exists w' : World,
    training_step args all_samples w = (Ok tt, w') /\
    files w' !! json_path args = files w !! json_path args.
Proof.
  unfold training_step, try_except, mbind, M_bind, bind.
  destruct (prepare_training_data_only_prints all_samples w)
    as (r & w1 & -> & _ & _ & _ & _ & _ & Hfiles).
  destruct r as [[X y]|e]; cbn; eexists; (split; [reflexivity|]); cbn.
  - rewrite lookup_insert_ne by (symmetry; apply json_npz_paths_differ).
    by rewrite Hfiles.
  - by rewrite Hfiles.
Qed.

(** C8. When the adapters give no sample, [main] prints its message and
    returns at once: the output files are as they were before the run. *)
Theorem empty_corpus_persists_nothing (args : Args) (w w1 : World) :
  collect_samples args w = (Ok [], w1) ->
  exists w' : World,
    main np_mean args w = (Ok tt, w') /\
    files w' = files w /\
    stdout w' = stdout w1 ++ [PrintNoDataset].
Proof.
  intros Hcollect.
  destruct (collect_samples_count args (guitarset_audio w) (idmt_guitar w))
    as [n Hcount].
  destruct (Hcount w eq_refl eq_refl) as (all' & w1' & Hc & _ & Henv).
  rewrite Hcollect in Hc. injection Hc as <- <-.
  destruct Henv as (_ & _ & _ & _ & Hfiles1).
  rewrite main_split. unfold mbind, M_bind, bind. rewrite Hcollect.
  cbn. eexists. split; [reflexivity|]. by split.
Qed.

(** C7, as the code has it. A run of [main] that collects samples, none
    of them with a non-empty chroma, never reaches the builder:
    [save_processed_data] raises on the non-empty list and the exception
    leaves [main]. No failure of the training step is reported, no
    training file appears, and no corpus has been persisted: the output
    files are untouched, or the destination has been cut and holds at
    most the head of a metadata block, and no sample. The [try]
    statement, had it been reached with these samples, would have
    reported the failure and left every file alone. *)
Theorem empty_training_set_never_reported
    (args : Args) (w w1 : World) (all_samples : list Sample) :
  collect_samples args w = (Ok all_samples, w1) ->
  all_samples <> [] ->
  Forall (fun s => usable s = false) all_samples ->
  (exists (e : exn) (w' : World),
     main np_mean args w = (Raise e, w') /\
     stdout w' = stdout w1 ++ [PrintSaving (length all_samples) (json_path args)] /\
     files w' !! npz_path args = files w !! npz_path args /\
     (files w' = files w \/
      exists written : list Chunk,
        files w' !! json_path args = Some (JsonFile written) /\
        length written <= 1 /\ stored_samples written = [])) /\
  (exists w2 : World,
     training_step args all_samples w1 = (Ok tt, w2) /\
     files w2 = files w1 /\
     stdout w2
     = stdout w1 ++
       [ PrintPreparing;
         PrintTrainingError (ValueError "Nenhuma feature válida encontrada") ]).
Proof.
  intros Hcollect Hne Hun. split; [|by apply training_step_reports_empty_set].
  destruct (collect_samples_count args (guitarset_audio w) (idmt_guitar w))
    as [n Hcount].
  destruct (Hcount w eq_refl eq_refl) as (all' & w1' & Hc & _ & Henv).
  rewrite Hcollect in Hc. injection Hc as <- <-.
  destruct Henv as (_ & _ & _ & _ & Hfiles1).
  destruct (save_processed_data_nonempty_raises all_samples (json_path args) w1 Hne)
    as (e & w' & Hsave & Hout & Hfiles).
  rewrite main_split. unfold mbind, M_bind, bind at 1. rewrite Hcollect.
  unfold persist. destruct all_samples as [|s0 rest]; [done|].
  unfold mbind, M_bind, bind. rewrite Hsave.
  exists e, w'. split; [done|]. split; [done|].
  destruct Hfiles as [Hfiles | (written & Hfiles & Hlen & Hstored)].
  - rewrite Hfiles, Hfiles1. split; [done | by left].
  - rewrite Hfiles, Hfiles1. split.
    + apply lookup_insert_ne, json_npz_paths_differ.
    + right. exists written. by rewrite lookup_insert_eq.
Qed.

(** X1. With at least one sample, a destination that can be opened
    and no write failing, [main] stops in [save_processed_data]: the
    TypeError of the encoder is not caught, the training step is not
    reached, and the destination holds the head of the metadata block
    only. *)
Lemma main_stops_in_save (args : Args) (w w1 : World) (all_samples : list Sample) :
  collect_samples args w = (Ok all_samples, w1) ->
  all_samples <> [] ->
  mkdir_fault w (json_path args) = None ->
  open_fault w (json_path args) = None ->
  write_fault w = None ->
  exists w' : World,
    main np_mean args w
    = (Raise (Raised "TypeError" "Object of type int64 is not JSON serializable"), w') /\
    files w'
    = <[json_path args :=
          JsonFile [ChunkHead (length all_samples)
                      (size (list_to_set (map chord all_samples) : gset string))]]>
        (files w) /\
    stdout w' = stdout w1 ++ [PrintSaving (length all_samples) (json_path args)].
Proof.
  intros Hcollect Hne Hmkdir Hopen Hfault.
  destruct (collect_samples_count args (guitarset_audio w) (idmt_guitar w))
    as [n Hcount].
  destruct (Hcount w eq_refl eq_refl) as (all' & w1' & Hc & _ & Henv).
  rewrite Hcollect in Hc. injection Hc as <- <-.
  destruct Henv as (_ & _ & _ & (Hfault1 & Hmkdir1 & Hopen1) & Hfiles1).
  destruct (save_processed_data_nonempty all_samples (json_path args) w1)
    as (w' & Hsave & Hfiles & Hout); [done | congruence | congruence | congruence |].
  rewrite main_split. unfold mbind, M_bind, bind at 1. rewrite Hcollect.
  unfold persist. destruct all_samples as [|s0 rest]; [done|].
  unfold mbind, M_bind, bind. rewrite Hsave.
  exists w'. split; [done|]. split; [by rewrite Hfiles, Hfiles1 | done].
Qed.

(** ** Two runs on the same inputs *)

(** C3, as the code has it. Two runs with the same arguments on the same
    two dataset directories collect the same number of samples, so the
    metadata blocks that [save_processed_data] builds for them have the
    same [total_samples]. When every IDMT name matches a pattern of the
    table the two runs collect the same samples and the blocks have the
    same label histogram; otherwise labels come from the draws of the
    generator, which the code does not fix. *)
Theorem rerun_same_total (args : Args) (w1 w2 : World) :
  guitarset_audio w1 = guitarset_audio w2 ->
  idmt_guitar w1 = idmt_guitar w2 ->
  exists (all1 all2 : list Sample) (w1' w2' : World),
    collect_samples args w1 = (Ok all1, w1') /\
    collect_samples args w2 = (Ok all2, w2') /\
    total_samples (corpus_metadata_of (clock w1') all1)
    = total_samples (corpus_metadata_of (clock w2') all2) /\
    (all_named (idmt_guitar w1) ->
     all1 = all2 /\
     chord_distribution (corpus_metadata_of (clock w1') all1)
     = chord_distribution (corpus_metadata_of (clock w2') all2)).
Proof.
  intros Hgs Hidmt.
  destruct (collect_samples_count args (guitarset_audio w1) (idmt_guitar w1))
    as [n Hcount].
  destruct (Hcount w1 eq_refl eq_refl) as (all1 & w1' & Hc1 & Hn1 & _).
  destruct (Hcount w2) as (all2 & w2' & Hc2 & Hn2 & _); [done | done |].
  exists all1, all2, w1', w2'. split; [done|]. split; [done|].
  split; [cbn; congruence|].
  intros Hnamed.
  destruct (collect_samples_named args (guitarset_audio w1) (idmt_guitar w1) Hnamed)
    as [all Hall].
  destruct (Hall w1 eq_refl eq_refl) as (w1b & Hb1 & _).
  destruct (Hall w2) as (w2b & Hb2 & _); [done | done |].
  rewrite Hc1 in Hb1. rewrite Hc2 in Hb2.
  injection Hb1 as -> _. injection Hb2 as -> _. done.
Qed.

End Properties.

(** * Concrete runs *)

(** A small instance of the model: samples are integers, librosa is
    replaced by a stand-in that returns arrays of zeros of the shapes
    librosa documents and raises on an empty signal. *)

Definition mean_Z (xs : list Z) : Z :=
  (foldr Z.add 0 xs / Z.of_nat (length xs))%Z.

Definition zeros (bins frames : nat) : ndarray :=
  {| shape0 := bins; shape1 := frames; item := fun _ _ => 0%Z |}.

Definition framed (y : list Z) (bins hop : nat) : result ndarray :=
  match y with
  | [] => Raise (Raised "ParameterError" "empty signal")
  | _ :: _ => Ok (zeros bins (frame_count y hop))
  end.

#[export] Instance framed_librosa : Librosa (F := Z) := {|
  chroma_stft y sr n_fft hop n_chroma := framed y n_chroma hop;
  melspectrogram y sr n_fft hop n_mels := framed y n_mels hop;
  power_to_db S := Ok S;
  librosa_mfcc y sr n_mfcc n_fft hop := framed y n_mfcc hop;
  librosa_spectral_centroid y sr n_fft hop := framed y 1 hop;
  librosa_rms y frame_length hop := framed y 1 hop;
  zero_crossing_rate y frame_length hop := framed y 1 hop
|}.

Lemma framed_shape (y : list Z) (bins hop : nat) (a : ndarray) :
  framed y bins hop = Ok a -> shape0 a = bins /\ shape1 a = frame_count y hop.
Proof. unfold framed. destruct y; [done|]. by intros [= <-]. Qed.

#[export] Instance framed_librosa_shapes : LibrosaShapes (F := Z).
Proof.
  split; simpl; intros; try (by eapply framed_shape).
  by simplify_eq.
Defined.

(** A world with the given generator and dataset directories, no output
    file, nothing printed, no fault of any kind. *)
Definition world_of (draws : nat -> nat)
    (gs idmt : option (list (AudioFile (F := Z)))) : World :=
  {| rng := draws; clock := "2024-05-01T12:00:00";
     guitarset_audio := gs; idmt_guitar := idmt;
     write_fault := None; mkdir_fault := fun _ => None;
     open_fault := fun _ => None; files := ∅; stdout := [] |}.

Definition empty_world : World (F := Z) := world_of (fun _ => 0) None None.

(** A chroma of two frames of twelve bins. *)
Definition two_frames : list (list Z) :=
  [ [1; 0; 0; 0; 1; 0; 0; 1; 0; 0; 0; 0]%Z;
    [3; 0; 0; 0; 1; 0; 0; 1; 0; 0; 0; 0]%Z ].

Definition sample_with (label : string) (feats : option (Features (F := Z)))
  : Sample :=
  {| id := "IDMT_take"; chord := label; instrument := "guitar";
     quality := "mixed"; audio_file := "datasets/idmt-guitar/take.wav";
     duration := (1024, sample_rate); features := feats;
     metadata := IdmtMetadata "take" sample_rate |}.

Definition features_with (c : list (list Z)) : Features :=
  {| chroma := c; mel_spectrogram := []; mfcc := []; spectral_centroid := [];
     rms := []; zcr := [];
     shape := {| time_steps := length c; chroma_bins := n_chroma;
                 mel_bins := n_mels; mfcc_coeffs := 13 |} |}.

(** ** Label inference *)

Example infer_gm_01 :
  infer_chord_from_filename "gm_01" empty_world = (Ok "G", empty_world).
Proof. reflexivity. Qed.

Example infer_Gm_take :
  infer_chord_from_filename "Gm_take" empty_world = (Ok "A", empty_world).
Proof. reflexivity. Qed.

Lemma gm_filename_gets_major_label_witness :
  Py.contains "gm" (Py.lower "GM_01") = true /\
  exists c : string,
    infer_chord_from_filename "GM_01" empty_world = (Ok c, empty_world) /\
    c ∈ major_chords /\ c <> "Gm".
Proof.
  split; [reflexivity|].
  apply gm_filename_gets_major_label. reflexivity.
Defined.

Lemma label_index_total_fixed_witness :
  label_index "Am" empty_world = (Ok 21, empty_world) /\
  label_index "am" empty_world = (Ok 0, empty_world).
Proof.
  split.
  - apply (proj1 (label_index_total_fixed (F := Z))). reflexivity.
  - apply (proj2 (label_index_total_fixed (F := Z))).
    apply (bool_decide_unpack _). vm_compute. exact I.
Defined.

(** ** Feature extraction and training data *)

Lemma extract_features_all_or_nothing_witness :
  exists (b : Features) (w' : World),
    extract_features [5; 0; 2]%Z empty_world = (Ok (Some b), w') /\
    length (chroma b) = 1 /\ length (mel_spectrogram b) = 1 /\
    length (mfcc b) = 1 /\ length (spectral_centroid b) = 1 /\
    length (rms b) = 1 /\ length (zcr b) = 1.
Proof.
  destruct (extract_features_all_or_nothing [5; 0; 2]%Z empty_world)
    as [w' [H | (b & H & _ & Hc & Hm & Hf & Hs & Hr & Hz)]].
  - vm_compute in H. discriminate H.
  - exists b, w'. repeat split; assumption.
Defined.

(** An empty signal makes the stand-in raise: the result is the empty
    dict and the failure is printed. *)
Example extract_features_empty_signal :
  extract_features [] empty_world
  = (Ok None,
     set_stdout [PrintFeatureError (Raised "ParameterError" "empty signal")]
       empty_world).
Proof. reflexivity. Qed.

Definition two_samples : list Sample :=
  [ sample_with "Am" (Some (features_with two_frames)); sample_with "C" None ].

Lemma prepare_training_data_shapes_witness :
  Forall chroma_well_formed two_samples /\
  exists (X : ndarray) (y : list nat) (w' : World),
    prepare_training_data mean_Z two_samples empty_world = (Ok (X, y), w') /\
    shape0 X = 1 /\ shape1 X = 12 /\ length y = 1.
Proof.
  assert (Forall chroma_well_formed two_samples) as Hwf.
  { repeat constructor. }
  split; [exact Hwf|].
  destruct (prepare_training_data_shapes mean_Z two_samples empty_world Hwf)
    as [_ [w' H]].
  cbn in H. destruct H as (X & y & H & H0 & H1 & Hy).
  by exists X, y, w'.
Defined.

Example prepare_two_samples :
  exists (X : ndarray) (y : list nat) (w' : World),
    prepare_training_data mean_Z two_samples empty_world = (Ok (X, y), w') /\
    tolist X = [ [2; 0; 0; 0; 1; 0; 0; 1; 0; 0; 0; 0]%Z ] /\ y = [21].
Proof. eexists _, _, _. split; [vm_compute; reflexivity|]. by vm_compute. Qed.

(** ** Corpus persistence *)

(** C2, counterexample. One sample is saved, and no write fails. The
    encoder stops at the histogram, whose count is a numpy integer:
    TypeError leaves [save_processed_data], and the destination holds
    the head of a metadata block that claims one sample, and no
    sample. *)
Lemma save_leaves_partial_document :
  exists w' : World,
    save_processed_data [sample_with "Am" None] "out/corpus.json" empty_world
    = (Raise (Raised "TypeError" "Object of type int64 is not JSON serializable"), w') /\
    files w' !! "out/corpus.json" = Some (JsonFile [ChunkHead 1 1]) /\
    claimed_total (F := Z) [ChunkHead 1 1] = Some 1 /\
    stored_samples (F := Z) [ChunkHead 1 1] = [] /\
    ~ consistent_document (F := Z) [ChunkHead 1 1].
Proof.
  eexists. split; [vm_compute; reflexivity|].
  split; [vm_compute; reflexivity|].
  split; [reflexivity|]. split; [reflexivity|].
  intros H. specialize (H 1 eq_refl). discriminate H.
Qed.

(** With no sample the histogram is empty and the whole document is
    written. *)
Example save_no_sample :
  exists w' : World,
    save_processed_data [] "out/corpus.json" empty_world = (Ok tt, w') /\
    exists chunks,
      files w' !! "out/corpus.json" = Some (JsonFile chunks) /\
      claimed_total chunks = Some 0 /\ stored_samples chunks = [].
Proof.
  eexists. split; [vm_compute; reflexivity|].
  eexists. split; [vm_compute; reflexivity|]. by split.
Qed.

(** ** Runs of [main] *)

(** A corpus document of one sample without features is in place. *)
Definition stored_corpus : list (Chunk (F := Z)) :=
  json_chunks (corpus_metadata_of "2024-05-01T12:00:00" [sample_with "C" None])
    [sample_with "C" None].

Definition corpus_in_place : World (F := Z) :=
  set_files {[ json_path default_args := JsonFile stored_corpus ]} empty_world.

Example training_step_reports_empty_set_run :
  exists w' : World,
    training_step mean_Z default_args [sample_with "C" None] corpus_in_place
    = (Ok tt, w') /\
    files w' !! json_path default_args = Some (JsonFile stored_corpus) /\
    files w' !! npz_path default_args = None /\
    stdout w'
    = [ PrintPreparing;
        PrintTrainingError (ValueError "Nenhuma feature válida encontrada") ].
Proof.
  destruct (training_step_reports_empty_set mean_Z default_args
              [sample_with "C" None] corpus_in_place)
    as (_ & w' & Hstep & Hfiles & Hout).
  - repeat constructor.
  - exists w'. split; [exact Hstep|]. rewrite Hfiles, Hout.
    split; [reflexivity|]. split; reflexivity.
Qed.

Lemma empty_corpus_persists_nothing_witness :
  exists w' : World,
    main mean_Z default_args empty_world = (Ok tt, w') /\
    files w' = ∅ /\
    stdout w'
    = [PrintBanner; PrintGuitarSetStart; PrintGuitarSetMissing;
       PrintIdmtStart; PrintIdmtMissing; PrintNoDataset].
Proof.
  edestruct (empty_corpus_persists_nothing mean_Z default_args empty_world)
    as (w' & Hmain & Hfiles & Hout).
  - vm_compute. reflexivity.
  - exists w'. split; [exact Hmain|]. split; [exact Hfiles | exact Hout].
Defined.

Definition silent_take : AudioFile (F := Z) :=
  {| path := "datasets/guitarset/audio/p1_C_fingerstyle.wav";
     stem := "p1_C_fingerstyle";
     decoded := Ok [] |}.

(** GuitarSet holds one file, whose signal is empty; there is no IDMT
    directory. *)
Definition silent_world : World := world_of (fun _ => 0) (Some [silent_take]) None.

Lemma main_stops_in_save_witness :
  exists w' : World,
    main mean_Z default_args silent_world
    = (Raise (Raised "TypeError" "Object of type int64 is not JSON serializable"), w') /\
    files w' !! json_path default_args = Some (JsonFile [ChunkHead 1 1]) /\
    files w' !! npz_path default_args = None /\
    stdout w'
    = [ PrintBanner; PrintGuitarSetStart;
        PrintFeatureError (Raised "ParameterError" "empty signal");
        PrintGuitarSetDone 1; PrintIdmtStart; PrintIdmtMissing;
        PrintSaving 1 (json_path default_args) ].
Proof.
  edestruct (main_stops_in_save mean_Z default_args silent_world)
    as (w' & Hmain & Hfiles & Hout).
  - vm_compute. reflexivity.
  - discriminate.
  - reflexivity.
  - reflexivity.
  - reflexivity.
  - exists w'. split; [exact Hmain|]. rewrite Hfiles, Hout.
    split; [by vm_compute|]. split; [by vm_compute | reflexivity].
Defined.

(** The same directories, with a regular file where the output
    directory should be: [mkdir] raises FileExistsError. *)
Definition blocked_world : World (F := Z) :=
  {| rng := fun _ => 0; clock := "2024-05-01T12:00:00";
     guitarset_audio := Some [silent_take]; idmt_guitar := None;
     write_fault := None;
     mkdir_fault := fun p => Some (Raised "FileExistsError" p);
     open_fault := fun _ => None;
     files := {[ "datasets/processed" := JsonFile [] ]}; stdout := [] |}.

(** C7, on a run. GuitarSet holds one file, whose signal is empty:
    one sample without features. [main] stops with the TypeError of
    the encoder, the corpus file holds the head of a metadata block
    that claims one sample, and the failure of the training step is
    never printed. With the output directory blocked the run stops at
    [mkdir] and writes nothing. *)
Lemma empty_training_set_never_reported_witness :
  (exists (e : exn) (w' : World),
     main mean_Z default_args silent_world = (Raise e, w') /\
     stdout w'
     = [ PrintBanner; PrintGuitarSetStart;
         PrintFeatureError (Raised "ParameterError" "empty signal");
         PrintGuitarSetDone 1; PrintIdmtStart; PrintIdmtMissing;
         PrintSaving 1 (json_path default_args) ] /\
     files w' !! npz_path default_args = None) /\
  (exists (e : exn) (w' : World),
     main mean_Z default_args blocked_world = (Raise e, w') /\
     files w' !! npz_path default_args = None).
Proof.
  split.
  - edestruct (empty_training_set_never_reported mean_Z default_args silent_world)
      as [(e & w' & Hmain & Hout & Hnpz & _) _].
    + vm_compute. reflexivity.
    + discriminate.
    + repeat constructor.
    + exists e, w'. split; [exact Hmain|]. split; [exact Hout | exact Hnpz].
  - edestruct (empty_training_set_never_reported mean_Z default_args blocked_world)
      as [(e & w' & Hmain & _ & Hnpz & _) _].
    + vm_compute. reflexivity.
    + discriminate.
    + repeat constructor.
    + exists e, w'. split; [exact Hmain|]. rewrite Hnpz. by vm_compute.
Defined.

Example blocked_output_directory :
  exists w' : World,
    main mean_Z default_args blocked_world
    = (Raise (Raised "FileExistsError" (json_path default_args)), w') /\
    files w' = files blocked_world.
Proof. eexists. split; [vm_compute; reflexivity | reflexivity]. Qed.

Definition riff : AudioFile (F := Z) :=
  {| path := "datasets/idmt-guitar/riff.wav";
     stem := "riff";
     decoded := Ok [5; 0; 2]%Z |}.

(** IDMT holds one file, whose name matches no pattern; the generator
    delivers [draw] every time. *)
Definition riff_world (draw : nat) : World :=
  world_of (fun _ => draw) None (Some [riff]).

Definition g_take : AudioFile (F := Z) :=
  {| path := "datasets/idmt-guitar/G_take.wav";
     stem := "G_take";
     decoded := Ok [5; 0; 2]%Z |}.

(** IDMT holds one file, whose name matches a pattern. *)
Definition g_take_world (draw : nat) : World :=
  world_of (fun _ => draw) None (Some [g_take]).

Lemma rerun_same_total_witness :
  exists (all1 all2 : list Sample) (w1' w2' : World),
    collect_samples default_args (g_take_world 0) = (Ok all1, w1') /\
    collect_samples default_args (g_take_world 1) = (Ok all2, w2') /\
    total_samples (corpus_metadata_of (clock w1') all1)
    = total_samples (corpus_metadata_of (clock w2') all2) /\
    all1 = all2 /\
    chord_distribution (corpus_metadata_of (clock w1') all1)
    = chord_distribution (corpus_metadata_of (clock w2') all2).
Proof.
  destruct (rerun_same_total default_args (g_take_world 0) (g_take_world 1))
    as (all1 & all2 & w1' & w2' & H1 & H2 & Htotal & Hnamed).
  - reflexivity.
  - reflexivity.
  - exists all1, all2, w1', w2'. split; [exact H1|]. split; [exact H2|].
    split; [exact Htotal|]. apply Hnamed.
    constructor; [|constructor]. eexists. vm_compute. reflexivity.
Defined.

(** C3, counterexample. Two runs on the same single IDMT file, whose
    name matches no pattern; they differ only in what the generator
    delivers. Both collect one sample; the first labels it C, the second
    D, and the histograms of the two metadata blocks differ. *)
Lemma rerun_histogram_differs :
  guitarset_audio (riff_world 0) = guitarset_audio (riff_world 1) /\
  idmt_guitar (riff_world 0) = idmt_guitar (riff_world 1) /\
  exists (all1 all2 : list Sample) (w1' w2' : World),
    collect_samples default_args (riff_world 0) = (Ok all1, w1') /\
    collect_samples default_args (riff_world 1) = (Ok all2, w2') /\
    map chord all1 = ["C"] /\
    map chord all2 = ["D"] /\
    total_samples (corpus_metadata_of (clock w1') all1) = 1 /\
    total_samples (corpus_metadata_of (clock w2') all2) = 1 /\
    chord_distribution (corpus_metadata_of (clock w1') all1) !! "C" = Some 1 /\
    chord_distribution (corpus_metadata_of (clock w2') all2) !! "C" = None /\
    chord_distribution (corpus_metadata_of (clock w1') all1)
    <> chord_distribution (corpus_metadata_of (clock w2') all2).
Proof.
  split; [reflexivity|]. split; [reflexivity|].
  eexists _, _, _, _. split; [vm_compute; reflexivity|].
  split; [vm_compute; reflexivity|].
  split; [reflexivity|]. split; [reflexivity|].
  split; [reflexivity|]. split; [reflexivity|].
  split; [by vm_compute|]. split; [by vm_compute|].
  intros H. apply (f_equal (fun d => d !! "C")) in H. vm_compute in H. discriminate H.
Qed.

(** ** The structured source, end to end *)

Definition tone (name : string) : AudioFile (F := Z) :=
  {| path := "datasets/guitarset/audio/" +:+ name +:+ ".wav";
     stem := name;
     decoded := Ok [5; 0; 2]%Z |}.

Definition three_tones : World :=
  world_of (fun _ => 0)
    (Some [tone "p1_C_fingerstyle"; tone "p1_Am_strum"; tone "p2_G_pick"]) None.

(** The three files give three samples labelled C, Am and G; their
    training data are a 3 x 12 matrix with the positions of the three
    labels in the vocabulary. *)
Example three_tones_training_data :
  exists (all_samples : list Sample) (w1 : World) (X : ndarray) (y : list nat) (w2 : World),
    collect_samples {| datasets := ["guitarset"]; output_dir := "out" |} three_tones
    = (Ok all_samples, w1) /\
    map chord all_samples = ["C"; "Am"; "G"] /\
    prepare_training_data mean_Z all_samples w1 = (Ok (X, y), w2) /\
    shape0 X = 3 /\ shape1 X = 12 /\ y = [0; 21; 7].
Proof.
  eexists _, _, _, _, _. split; [vm_compute; reflexivity|].
  split; [reflexivity|]. split; [vm_compute; reflexivity|]. by vm_compute.
Qed.


(** * Further properties *)

(** ** [str.split] and the parts of a stem *)

(** How often [sep] occurs in [s]. *)
Fixpoint count_char (sep : ascii) (s : string) : nat :=
  match s with
  | EmptyString => 0
  | String c s' => (if Ascii.eqb c sep then 1 else 0) + count_char sep s'
  end.

(** [sep.join(parts)] for a one-character separator. *)
Fixpoint join (sep : ascii) (parts : list string) : string :=
  match parts with
  | [] => EmptyString
  | [p] => p
  | p :: rest => p +:+ String sep (join sep rest)
  end.

Lemma string_app_assoc (a b c : string) : (a +:+ b) +:+ c = a +:+ (b +:+ c).
Proof.
  induction a as [|x a IH]; [done|].
  change (String x ((a +:+ b) +:+ c) = String x (a +:+ (b +:+ c))). by rewrite IH.
Qed.

Lemma string_app_empty_r (a : string) : a +:+ "" = a.
Proof.
  induction a as [|x a IH]; [done|].
  change (String x (a +:+ "") = String x a). by rewrite IH.
Qed.

Lemma rev_app_app (s1 s2 : string) :
  String.rev_app s1 s2 = String.rev_app s1 "" +:+ s2.
Proof.
  revert s2. induction s1 as [|c s1 IH]; intros s2; [done|].
  cbn [String.rev_app]. rewrite (IH (String c s2)), (IH (String c "")).
  by rewrite string_app_assoc.
Qed.

Lemma length_split_go (sep : ascii) (cur s : string) :
  length (Py.split_go sep cur s) = S (count_char sep s).
Proof.
  revert cur. induction s as [|c s IH]; intros cur; [done|].
  cbn. destruct (Ascii.eqb c sep); cbn; by rewrite IH.
Qed.

Lemma join_split_go (sep : ascii) (cur s : string) :
  join sep (Py.split_go sep cur s) = String.rev cur +:+ s.
Proof.
  revert cur. induction s as [|c s IH]; intros cur.
  - cbn. by rewrite string_app_empty_r.
  - cbn [Py.split_go]. destruct (Ascii.eqb c sep) eqn:E.
    + apply Ascii.eqb_eq in E as ->.
      specialize (IH EmptyString).
      pose proof (length_split_go sep EmptyString s) as Hlen.
      cbn [join]. destruct (Py.split_go sep "" s) as [|p rest]; [done|].
      by rewrite IH.
    + rewrite IH. unfold String.rev. cbn [String.rev_app].
      rewrite (rev_app_app cur (String c "")). by rewrite string_app_assoc.
Qed.

(** [split] gives one part more than there are separators, and joining
    the parts gives the string back. *)
Lemma length_split (sep : ascii) (s : string) :
  length (Py.split sep s) = S (count_char sep s).
Proof. apply length_split_go. Qed.

Lemma join_split (sep : ascii) (s : string) : join sep (Py.split sep s) = s.
Proof. unfold Py.split. by rewrite join_split_go. Qed.

Section Adapters.

Context {F : Type} `{!Inhabited F} `{!Librosa (F:=F)}.

Local Abbreviation World := (@World F).
Local Abbreviation Sample := (@Sample F).
Local Abbreviation AudioFile := (@AudioFile F).
Local Abbreviation Audio := (@Audio F).

(** ** The GuitarSet adapter, file by file *)

(** [librosa.load] returns on the file. *)
Definition loads (wav : AudioFile) : bool :=
  match decoded wav with
  | Ok _ => true
  | Raise _ => false
  end.

(** The stem has at least three parts and the file can be loaded. *)
Definition guitarset_accepts (wav : AudioFile) : bool :=
  (2 <=? count_char "_" (stem wav)) && loads wav.

(** [sample] is what [process_guitarset] records for [wav]. *)
Definition guitarset_sample_of (wav : AudioFile) (sample : Sample) : Prop :=
  audio_file sample = path wav /\
  instrument sample = "guitar" /\
  quality sample = "studio" /\
  (exists (player style : string) (rest : list string),
     Py.split "_" (stem wav) = player :: chord sample :: style :: rest /\
     id sample = "GuitarSet_" +:+ player +:+ "_" +:+ chord sample +:+ "_" +:+ style /\
     metadata sample = GuitarSetMetadata player style sample_rate) /\
  (exists audio : Audio,
     decoded wav = Ok audio /\
     duration sample = (length audio, sample_rate) /\
     forall w : World, (extract_features audio w).1 = Ok (features sample)).

Lemma extract_features_result (audio : Audio) :
  exists feats : option (Features (F := F)),
    (forall w : World, (extract_features audio w).1 = Ok feats) /\
    forall w : World, exists w' : World,
      extract_features audio w = (Ok feats, w') /\ only_printed w w'.
Proof.
  destruct (extract_features_total audio) as [feats Hfeats].
  exists feats. split; [|exact Hfeats].
  intros w. destruct (Hfeats w) as (w' & -> & _). done.
Qed.

Lemma split_short (s : string) :
  count_char "_" s < 2 ->
  match Py.split "_" s with
  | _ :: _ :: _ :: _ => False
  | _ => True
  end.
Proof.
  intros Hlt. pose proof (length_split "_" s) as Hlen.
  destruct (Py.split "_" s) as [|a [|b [|c rest]]]; [done..|].
  simpl in Hlen. lia.
Qed.

Lemma split_long (s : string) :
  2 <= count_char "_" s ->
  exists (player chord style : string) (rest : list string),
    Py.split "_" s = player :: chord :: style :: rest.
Proof.
  intros Hle. pose proof (length_split "_" s) as Hlen.
  destruct (Py.split "_" s) as [|a [|b [|c rest]]]; simpl in Hlen; [lia..|].
  by eexists _, _, _, _.
Qed.

(** One round of the loop of [process_guitarset]: an accepted file adds
    its sample, any other file adds nothing; only the console
    changes. *)
Lemma process_guitarset_file_content (wav : AudioFile) :
  exists new : list Sample,
    Forall2 guitarset_sample_of (if guitarset_accepts wav then [wav] else []) new /\
    forall (samples : list Sample) (w : World),
      exists w' : World,
        process_guitarset_file samples wav w = (Ok (samples ++ new), w') /\
        only_printed w w'.
Proof.
  unfold guitarset_accepts, loads, process_guitarset_file, try_except.
  destruct (le_lt_dec 2 (count_char "_" (stem wav))) as [Hle|Hlt].
  - rewrite (proj2 (Nat.leb_le _ _) Hle). cbn [andb].
    destruct (split_long _ Hle) as (player & label & style & rest & Hsplit).
    rewrite Hsplit. unfold mbind, M_bind, bind, call.
    destruct (decoded wav) as [audio|e] eqn:Hdec.
    + destruct (extract_features_result audio) as (feats & Hres & Hrun).
      exists [ {| id := "GuitarSet_" +:+ player +:+ "_" +:+ label +:+ "_" +:+ style;
                  chord := label;
                  instrument := "guitar";
                  quality := "studio";
                  audio_file := path wav;
                  duration := (length audio, sample_rate);
                  features := feats;
                  metadata := GuitarSetMetadata player style sample_rate |} ].
      split.
      * constructor; [|constructor].
        split; [reflexivity|]. split; [reflexivity|]. split; [reflexivity|].
        split; [by eexists _, _, _ | by eexists].
      * intros samples w. destruct (Hrun w) as (w1 & -> & Hw1).
        match goal with |- context [if ?b then _ else _] => destruct b end; cbn.
        -- eexists. split; [reflexivity|].
           eapply only_printed_trans; [exact Hw1 | apply only_printed_print].
        -- eexists. split; [reflexivity | exact Hw1].
    + exists []. split; [constructor|]. intros samples w. cbn. rewrite app_nil_r.
      eexists. split; [reflexivity | by repeat split].
  - assert ((2 <=? count_char "_" (stem wav)) = false) as ->
      by (apply Nat.leb_gt; lia).
    cbn [andb]. exists []. split; [constructor|].
    intros samples w. exists w. rewrite app_nil_r.
    pose proof (split_short _ Hlt) as Hs.
    destruct (Py.split "_" (stem wav)) as [|a [|b [|c rest]]];
      [split; [reflexivity | apply only_printed_refl]..|done].
Qed.

Lemma for_each_guitarset_content (wavs : list AudioFile) :
  exists new : list Sample,
    Forall2 guitarset_sample_of (List.filter guitarset_accepts wavs) new /\
    forall (samples : list Sample) (w : World),
      exists w' : World,
        for_each process_guitarset_file samples wavs w = (Ok (samples ++ new), w') /\
        only_printed w w'.
Proof.
  induction wavs as [|wav wavs (rest & Hrest & IH)].
  - exists []. split; [constructor|]. intros samples w. exists w.
    rewrite app_nil_r. split; [done | apply only_printed_refl].
  - destruct (process_guitarset_file_content wav) as (new & Hnew & Hrun).
    exists (new ++ rest). split.
    + cbn [List.filter].
      destruct (guitarset_accepts wav); [|by inversion Hnew].
      inversion Hnew as [|? s ? ? Hs Hnil]; subst. inversion Hnil; subst.
      by constructor.
    + intros samples w. cbn [for_each]. unfold mbind, M_bind, bind.
      destruct (Hrun samples w) as (w1 & -> & Hw1).
      destruct (IH (samples ++ new) w1) as (w' & -> & Hw').
      exists w'. rewrite app_assoc. split; [done | by eapply only_printed_trans].
Qed.

(** X2. When the GuitarSet directory exists, [process_guitarset] returns
    exactly one sample for each file whose stem has at least two
    underscores and that [librosa.load] can read, in discovery order,
    and nothing for the other files. The sample has the file's path,
    the second part of the stem as its label, verbatim, the first three
    parts in its id, and the features [extract_features] returns for
    the loaded signal. Nothing but the console changes. *)
Theorem process_guitarset_samples (wavs : list AudioFile) (w : World) :
  guitarset_audio w = Some wavs ->
  exists (samples : list Sample) (w' : World),
    process_guitarset w = (Ok samples, w') /\
    Forall2 guitarset_sample_of (List.filter guitarset_accepts wavs) samples /\
    only_printed w w'.
Proof.
  intros Hdir.
  destruct (for_each_guitarset_content wavs) as (new & Hnew & Hrun).
  unfold process_guitarset, mbind, M_bind, bind.
  cbn [print gets set_stdout guitarset_audio]. rewrite Hdir.
  destruct (Hrun [] (set_stdout (stdout w ++ [PrintGuitarSetStart]) w))
    as (w1 & -> & Hw1).
  cbn. eexists _, _. split; [reflexivity|]. split; [exact Hnew|].
  eapply only_printed_trans; [|apply only_printed_print].
  eapply only_printed_trans; [|exact Hw1]. by repeat split.
Qed.

(** X3. A file whose stem has fewer than two underscores is passed over
    in silence: it is not loaded, nothing is printed, the list of
    samples and the world stay as they are. *)
Theorem guitarset_short_stem_skipped
    (wav : AudioFile) (samples : list Sample) (w : World) :
  count_char "_" (stem wav) < 2 ->
  process_guitarset_file samples wav w = (Ok samples, w).
Proof.
  intros Hlt. unfold process_guitarset_file, try_except.
  pose proof (split_short _ Hlt) as Hs.
  by destruct (Py.split "_" (stem wav)) as [|a [|b [|c rest]]].
Qed.

(** X4. A file with a well-formed stem that [librosa.load] cannot read
    is reported with its path and the exception, and passed over: the
    list of samples stays as it is and only the console changes. *)
Theorem guitarset_load_failure_reported
    (wav : AudioFile) (e : exn) (samples : list Sample) (w : World) :
  2 <= count_char "_" (stem wav) ->
  decoded wav = Raise e ->
  process_guitarset_file samples wav w
  = (Ok samples, set_stdout (stdout w ++ [PrintFileError (path wav) e]) w).
Proof.
  intros Hle Hdec. unfold process_guitarset_file, try_except.
  destruct (split_long _ Hle) as (player & chord & style & rest & ->).
  unfold mbind, M_bind, bind, call. by rewrite Hdec.
Qed.

(** X5. When the stem has exactly two underscores, the id of the sample
    is "GuitarSet_" followed by the stem. *)
Theorem guitarset_id_is_stem (wav : AudioFile) (sample : Sample) :
  count_char "_" (stem wav) = 2 ->
  guitarset_sample_of wav sample ->
  id sample = "GuitarSet_" +:+ stem wav.
Proof.
  intros Hcount (_ & _ & _ & (player & style & rest & Hsplit & Hid & _) & _).
  pose proof (length_split "_" (stem wav)) as Hlen.
  rewrite Hsplit, Hcount in Hlen. destruct rest; [|done].
  rewrite Hid.
  transitivity ("GuitarSet_" +:+ join "_" (Py.split "_" (stem wav)));
    [by rewrite Hsplit | by rewrite join_split].
Qed.

(** ** The IDMT adapter, file by file *)

(** The labels [infer_chord_from_filename] can give: the five of the
    pattern path and the eight of the fallback, which share five. *)
Definition idmt_labels : list string :=
  [ "A"; "C"; "D"; "E"; "G"; "Am"; "Em"; "Dm" ].

(** The stem matches no pattern of the table. *)
Definition unnamed (wav : AudioFile) : bool :=
  match first_match chord_mappings (Py.lower (stem wav)) with
  | Some _ => false
  | None => true
  end.

Lemma major_chords_idmt_labels (c : string) : c ∈ major_chords -> c ∈ idmt_labels.
Proof.
  unfold major_chords, idmt_labels. rewrite !elem_of_cons.
  intros [->|[->|[->|[->|[->|H]]]]]; [tauto..|]. by apply elem_of_nil in H.
Qed.

Lemma fallback_choice_idmt_labels (draw : nat) :
  nth (draw `mod` length fallback_chords) fallback_chords "" ∈ idmt_labels.
Proof.
  assert (draw `mod` length fallback_chords < 8) as Hlt.
  { apply Nat.mod_upper_bound. done. }
  destruct (draw `mod` length fallback_chords) as [|[|[|[|[|[|[|[|n]]]]]]]];
    [apply (bool_decide_unpack _); by vm_compute..|lia].
Qed.

Lemma idmt_labels_in_vocab (c : string) :
  c ∈ idmt_labels -> exists k : nat, chord_vocab !! k = Some c.
Proof.
  unfold idmt_labels. rewrite !elem_of_cons.
  intros [->|[->|[->|[->|[->|[->|[->|[->|H]]]]]]]];
    [by eexists 9 | by eexists 0 | by eexists 2 | by eexists 4 | by eexists 7
    | by eexists 21 | by eexists 16 | by eexists 14 | by apply elem_of_nil in H].
Qed.

(** X6. Whatever the filename and the draw, the label
    [infer_chord_from_filename] returns is one of A, C, D, E, G, Am, Em,
    Dm. Each of them is in the vocabulary, so its class index is its own
    position there and never the default 0 of an unknown label. *)
Theorem infer_chord_label_in_vocab (filename : string) (w : World) :
  exists (c : string) (w' : World) (k : nat),
    infer_chord_from_filename filename w = (Ok c, w') /\
    c ∈ idmt_labels /\
    chord_vocab !! k = Some c /\
    label_index c w' = (Ok k, w').
Proof.
  assert (exists (c : string) (w' : World),
            infer_chord_from_filename filename w = (Ok c, w') /\ c ∈ idmt_labels)
    as (c & w' & Hrun & Hc).
  { unfold infer_chord_from_filename.
    destruct (first_match chord_mappings (Py.lower filename)) as [c|] eqn:E.
    - exists c, w. split; [done|].
      by apply major_chords_idmt_labels, (first_match_major (Py.lower filename)).
    - eexists _, _. split; [reflexivity|]. apply fallback_choice_idmt_labels. }
  destruct (idmt_labels_in_vocab c Hc) as [k Hk].
  exists c, w', k. split; [done|]. split; [done|]. split; [done|].
  by apply label_index_in_vocab.
Qed.

(** [sample] is what [process_idmt_guitar] records for [wav]. *)
Definition idmt_sample_of (wav : AudioFile) (sample : Sample) : Prop :=
  audio_file sample = path wav /\
  id sample = "IDMT_" +:+ stem wav /\
  instrument sample = "guitar" /\
  quality sample = "mixed" /\
  metadata sample = IdmtMetadata (stem wav) sample_rate /\
  chord sample ∈ idmt_labels /\
  (forall c : string,
     first_match chord_mappings (Py.lower (stem wav)) = Some c -> chord sample = c) /\
  (exists audio : Audio,
     decoded wav = Ok audio /\
     duration sample = (length audio, sample_rate) /\
     forall w : World, (extract_features audio w).1 = Ok (features sample)).

(** [w'] is [w] with [k] draws of the generator used up, and more on
    the console. *)
Definition drew (k : nat) (w w' : World) : Prop :=
  same_env w w' /\ forall n : nat, rng w' n = rng w (n + k).

Lemma drew_only_printed (k : nat) (w1 w2 w3 : World) :
  drew k w1 w2 -> only_printed w2 w3 -> drew k w1 w3.
Proof.
  intros [Henv Hrng] [Hrng' Henv']. split; [by eapply same_env_trans|].
  intros n. by rewrite Hrng', Hrng.
Qed.

Lemma drew_trans (k1 k2 : nat) (w1 w2 w3 : World) :
  drew k1 w1 w2 -> drew k2 w2 w3 -> drew (k1 + k2) w1 w3.
Proof.
  intros [Henv Hrng] [Henv' Hrng']. split; [by eapply same_env_trans|].
  intros n. rewrite Hrng', Hrng. f_equal. lia.
Qed.

Lemma infer_chord_drew (filename : string) (w : World) :
  exists (c : string) (w' : World),
    infer_chord_from_filename filename w = (Ok c, w') /\
    c ∈ idmt_labels /\
    (forall c' : string,
       first_match chord_mappings (Py.lower filename) = Some c' -> c = c') /\
    drew (match first_match chord_mappings (Py.lower filename) with
          | Some _ => 0 | None => 1 end) w w'.
Proof.
  unfold infer_chord_from_filename.
  destruct (first_match chord_mappings (Py.lower filename)) as [c|] eqn:E.
  - exists c, w. split; [done|].
    split; [by apply major_chords_idmt_labels, (first_match_major (Py.lower filename))|].
    split; [by intros c' [= ->]|]. split; [apply same_env_refl|].
    intros n. by rewrite Nat.add_0_r.
  - eexists _, _. split; [reflexivity|].
    split; [apply fallback_choice_idmt_labels|]. split; [done|].
    split; [by repeat split|]. intros n. cbn. f_equal. lia.
Qed.

(** One round of the loop of [process_idmt_guitar]: a file that can be
    loaded adds its sample; the label is inferred, and a draw used for
    an unmatched name, before the file is loaded. *)
Lemma process_idmt_file_content (wav : AudioFile) (samples : list Sample) (w : World) :
  exists (new : list Sample) (w' : World),
    process_idmt_file samples wav w = (Ok (samples ++ new), w') /\
    Forall2 idmt_sample_of (if loads wav then [wav] else []) new /\
    drew (if unnamed wav then 1 else 0) w w'.
Proof.
  unfold loads, unnamed, process_idmt_file, try_except, mbind, M_bind, bind, call.
  destruct (infer_chord_drew (stem wav) w) as (c & w0 & -> & Hc & Hmatch & Hdrew).
  assert (drew (if match first_match chord_mappings (Py.lower (stem wav)) with
                   | Some _ => false | None => true end then 1 else 0) w w0) as Hdrew'.
  { by destruct (first_match chord_mappings (Py.lower (stem wav))). }
  clear Hdrew.
  destruct (decoded wav) as [audio|e] eqn:Hdec.
  - destruct (extract_features_result audio) as (feats & Hres & Hrun).
    destruct (Hrun w0) as (w1 & -> & Hw1).
    exists [ {| id := "IDMT_" +:+ stem wav;
                chord := c;
                instrument := "guitar";
                quality := "mixed";
                audio_file := path wav;
                duration := (length audio, sample_rate);
                features := feats;
                metadata := IdmtMetadata (stem wav) sample_rate |} ].
    match goal with |- context [if ?b then _ else _] => destruct b end; cbn;
      eexists; (split; [reflexivity|]);
      (split; [constructor; [|constructor]; repeat (split; [done|]); by eexists|]).
    + eapply drew_only_printed; [exact Hdrew'|].
      eapply only_printed_trans; [exact Hw1 | apply only_printed_print].
    + by eapply drew_only_printed.
  - exists []. cbn. rewrite app_nil_r. eexists. split; [reflexivity|].
    split; [constructor|]. eapply drew_only_printed; [exact Hdrew'|].
    by repeat split.
Qed.

Lemma for_each_idmt_content (wavs : list AudioFile) (samples : list Sample) (w : World) :
  exists (new : list Sample) (w' : World),
    for_each process_idmt_file samples wavs w = (Ok (samples ++ new), w') /\
    Forall2 idmt_sample_of (List.filter loads wavs) new /\
    drew (length (List.filter unnamed wavs)) w w'.
Proof.
  revert samples w. induction wavs as [|wav wavs IH]; intros samples w.
  - exists [], w. rewrite app_nil_r. split; [done|]. split; [constructor|].
    split; [apply same_env_refl|]. intros n. by rewrite Nat.add_0_r.
  - destruct (process_idmt_file_content wav samples w) as (new & w1 & Hrun & Hnew & Hw1).
    destruct (IH (samples ++ new) w1) as (rest & w' & Hrest & Hall & Hw').
    exists (new ++ rest), w'. cbn [for_each]. unfold mbind, M_bind, bind.
    rewrite Hrun, Hrest, app_assoc. split; [done|]. cbn [List.filter]. split.
    + destruct (loads wav); [|by inversion Hnew].
      inversion Hnew as [|? s ? ? Hs Hnil]; subst. inversion Hnil; subst.
      by constructor.
    + destruct (unnamed wav); [apply (drew_trans 1 _ _ _ _ Hw1 Hw')|].
      apply (drew_trans 0 _ _ _ _ Hw1 Hw').
Qed.

(** X7. When the IDMT directory exists, [process_idmt_guitar] returns
    exactly one sample for each file [librosa.load] can read, in
    discovery order. The sample has the file's path, the id "IDMT_"
    followed by the stem, and a label among A, C, D, E, G, Am, Em, Dm,
    which is the matched one when the stem matches a pattern. The
    generator gives one draw for every file whose stem matches no
    pattern, whether that file can be loaded or not; apart from the
    generator and the console the world is unchanged. *)
Theorem process_idmt_guitar_samples (wavs : list AudioFile) (w : World) :
  idmt_guitar w = Some wavs ->
  exists (samples : list Sample) (w' : World),
    process_idmt_guitar w = (Ok samples, w') /\
    Forall2 idmt_sample_of (List.filter loads wavs) samples /\
    same_env w w' /\
    forall n : nat, rng w' n = rng w (n + length (List.filter unnamed wavs)).
Proof.
  intros Hdir.
  unfold process_idmt_guitar, mbind, M_bind, bind.
  cbn [print gets set_stdout idmt_guitar]. rewrite Hdir.
  destruct (for_each_idmt_content wavs [] (set_stdout (stdout w ++ [PrintIdmtStart]) w))
    as (new & w1 & -> & Hnew & Henv & Hrng).
  cbn. eexists _, _. split; [reflexivity|]. split; [exact Hnew|]. split.
  - eapply same_env_trans; [|by repeat split].
    eapply same_env_trans; [|exact Henv]. by repeat split.
  - intros n. cbn. by rewrite Hrng.
Qed.

(** X8. A file whose stem matches no pattern and that [librosa.load]
    cannot read still costs a draw: its label is drawn first, then the
    load fails, the failure is reported and no sample is added. *)
Theorem idmt_draw_precedes_load
    (wav : AudioFile) (e : exn) (samples : list Sample) (w : World) :
  unnamed wav = true ->
  decoded wav = Raise e ->
  process_idmt_file samples wav w
  = (Ok samples,
     set_stdout (stdout w ++ [PrintFileError (path wav) e])
       (set_rng (fun n => rng w (S n)) w)).
Proof.
  unfold unnamed. intros Hun Hdec.
  unfold process_idmt_file, try_except, mbind, M_bind, bind, call,
    infer_chord_from_filename.
  destruct (first_match chord_mappings (Py.lower (stem wav))); [done|].
  cbn. by rewrite Hdec.
Qed.

End Adapters.

(** ** The label histogram of the metadata block *)

(** How often [c] occurs in [chords]. *)
Definition occurrences (c : string) (chords : list string) : nat :=
  length (List.filter (String.eqb c) chords).

(** The sum of the counts of a histogram. *)
Definition histogram_total (d : gmap string nat) : nat :=
  map_fold (fun _ n acc => n + acc) 0 d.

Lemma lookup_count_labels (c : string) (labels : list string) :
  count_labels labels !! c
  = match occurrences c labels with
    | 0 => None
    | S n => Some (S n)
    end.
Proof.
  unfold occurrences. induction labels as [|x labels IH]; [done|].
  cbn [count_labels foldr List.filter].
  fold (count_labels labels).
  destruct (String.eqb c x) eqn:E.
  - apply String.eqb_eq in E as <-. rewrite lookup_insert_eq, IH. cbn [length].
    by destruct (length (List.filter (String.eqb c) labels)).
  - rewrite lookup_insert_ne; [done|]. intros ->. by rewrite String.eqb_refl in E.
Qed.

Lemma dom_count_labels (labels : list string) :
  dom (count_labels labels) = (list_to_set labels : gset string).
Proof.
  induction labels as [|x labels IH]; [apply dom_empty_L|].
  cbn [count_labels foldr list_to_set]. fold (count_labels labels).
  by rewrite dom_insert_L, IH.
Qed.

Lemma histogram_total_insert (d : gmap string nat) (c : string) (n : nat) :
  d !! c = None -> histogram_total (<[c := n]> d) = n + histogram_total d.
Proof.
  intros Hc. unfold histogram_total.
  rewrite map_fold_insert_L; [done | intros; lia | done].
Qed.

Lemma histogram_total_count_labels (labels : list string) :
  histogram_total (count_labels labels) = length labels.
Proof.
  induction labels as [|x labels IH]; [done|].
  cbn [count_labels foldr length]. fold (count_labels labels).
  destruct (count_labels labels !! x) as [n|] eqn:Hx; cbn [default].
  - rewrite <- insert_delete_eq.
    rewrite histogram_total_insert by apply lookup_delete_eq.
    rewrite <- IH.
    rewrite <- (insert_delete_id (count_labels labels) x n Hx) at 2.
    rewrite histogram_total_insert by apply lookup_delete_eq.
    unfold Datatypes.id. lia.
  - by rewrite histogram_total_insert, IH.
Qed.

(** The image of a list has at most as many distinct elements as the
    list. *)
Lemma size_list_to_set_fmap (f : string -> string) (l : list string) :
  size (list_to_set (f <$> l) : gset string) <= size (list_to_set l : gset string).
Proof.
  induction l as [|x l IH]; [done|].
  cbn [fmap list_fmap list_to_set]. fold (f <$> l).
  destruct (decide (x ∈ l)) as [Hin|Hout].
  - assert (f x ∈ f <$> l) as Hfin by by apply list_elem_of_fmap_2.
    rewrite !subseteq_union_1_L; [done | |];
      apply singleton_subseteq_l; by apply elem_of_list_to_set.
  - rewrite (size_union {[x]}), size_singleton;
      [|apply disjoint_singleton_l; by rewrite elem_of_list_to_set].
    rewrite size_union_alt, size_singleton.
    pose proof (subseteq_size
                  ((list_to_set (f <$> l) : gset string) ∖ {[f x]})
                  (list_to_set (f <$> l))) as Hle.
    assert ((list_to_set (f <$> l) : gset string) ∖ {[f x]} ⊆ list_to_set (f <$> l))
      as Hsub by by apply subseteq_difference_l.
    apply Hle in Hsub. lia.
Qed.

Section Corpus.

Context {F : Type} `{!Inhabited F}.
Variable np_mean : list F -> F.
Context `{!Librosa (F:=F)}.

Local Abbreviation World := (@World F).
Local Abbreviation Sample := (@Sample F).
Local Abbreviation AudioFile := (@AudioFile F).
Local Abbreviation Audio := (@Audio F).
Local Abbreviation ndarray := (@ndarray F).
Local Abbreviation Features := (@Features F).

(** X9. The metadata block [save_processed_data] builds for the
    samples it is given: [total_samples] is their number, and the
    counts of the histogram add up to it. The histogram is taken on the
    labels as numpy keeps them, without the NUL characters they end
    with: an entry counts the samples whose label is its key up to such
    an ending, and a key without sample has no entry. [unique_chords]
    counts the labels as Python strings, so it is at least the number
    of entries; when no label ends with NUL the two numbers agree and
    every entry counts the samples of exactly its label. *)
Theorem corpus_metadata_consistent (now : string) (samples : list Sample) :
  total_samples (corpus_metadata_of now samples) = length samples /\
  histogram_total (chord_distribution (corpus_metadata_of now samples))
  = total_samples (corpus_metadata_of now samples) /\
  (forall c : string,
     chord_distribution (corpus_metadata_of now samples) !! c
     = match occurrences c (map (fun s => np_str (chord s)) samples) with
       | 0 => None
       | S n => Some (S n)
       end) /\
  size (chord_distribution (corpus_metadata_of now samples))
  <= unique_chords (corpus_metadata_of now samples) /\
  (Forall (fun s => np_str (chord s) = chord s) samples ->
   unique_chords (corpus_metadata_of now samples)
   = size (chord_distribution (corpus_metadata_of now samples)) /\
   forall c : string,
     chord_distribution (corpus_metadata_of now samples) !! c
     = match occurrences c (map chord samples) with
       | 0 => None
       | S n => Some (S n)
       end).
Proof.
  cbn [corpus_metadata_of total_samples unique_chords chord_distribution].
  unfold np_unique_counts.
  split; [done|]. split.
  { by rewrite histogram_total_count_labels, length_fmap, length_map. }
  split.
  { intros c. rewrite lookup_count_labels.
    assert (np_str <$> map chord samples = map (fun s => np_str (chord s)) samples)
      as -> by (clear; induction samples as [|s samples IH]; [done|]; cbn; by rewrite IH).
    done. }
  split.
  { rewrite <- size_dom, dom_count_labels. apply size_list_to_set_fmap. }
  intros Hclean.
  assert (np_str <$> map chord samples = map chord samples) as ->.
  { induction Hclean as [|s samples Hs _ IH]; [done|]. cbn. by rewrite Hs, IH. }
  split.
  - by rewrite <- dom_count_labels, size_dom.
  - intros c. apply lookup_count_labels.
Qed.

(** ** Feature dicts *)

(** X10. Under librosa's shapes, a feature dict describes itself: its
    ['shape'] entry gives the number of frames of the signal and the 12,
    128 and 13 bins that every frame of the chroma, of the mel
    spectrogram and of the cepstral coefficients has; centroid, RMS and
    zero-crossing rate have one value per frame. A successful extraction
    leaves the world as it is. *)
Theorem extract_features_shape_entry `{!LibrosaShapes}
    (audio : Audio) (w w' : World) (b : Features) :
  extract_features audio w = (Ok (Some b), w') ->
  w' = w /\
  time_steps (shape b) = frame_count audio hop_length /\
  length (chroma b) = time_steps (shape b) /\
  (chroma_bins (shape b) = 12 /\
   Forall (fun row : list F => length row = chroma_bins (shape b)) (chroma b)) /\
  (mel_bins (shape b) = 128 /\
   Forall (fun row : list F => length row = mel_bins (shape b)) (mel_spectrogram b)) /\
  (mfcc_coeffs (shape b) = 13 /\
   Forall (fun row : list F => length row = mfcc_coeffs (shape b)) (mfcc b)) /\
  Forall (fun row : list F => length row = 1) (spectral_centroid b) /\
  Forall (fun row : list F => length row = 1) (rms b) /\
  Forall (fun row : list F => length row = 1) (zcr b).
Proof.
  unfold extract_features, try_except, mbind, M_bind, bind, call, mret, M_ret, ret.
  destruct (chroma_stft _ _ _ _ _) as [a1|e] eqn:E1; [|by intros [= ?]].
  destruct (melspectrogram _ _ _ _ _) as [a2|e] eqn:E2; [|by intros [= ?]].
  destruct (power_to_db a2) as [a3|e] eqn:E3; [|by intros [= ?]].
  destruct (librosa_mfcc _ _ _ _ _) as [a4|e] eqn:E4; [|by intros [= ?]].
  destruct (librosa_spectral_centroid _ _ _ _) as [a5|e] eqn:E5; [|by intros [= ?]].
  destruct (librosa_rms _ _ _) as [a6|e] eqn:E6; [|by intros [= ?]].
  destruct (zero_crossing_rate _ _ _) as [a7|e] eqn:E7; [|by intros [= ?]].
  intros [= <- <-].
  cbn [chroma mel_spectrogram mfcc spectral_centroid rms zcr shape
       time_steps chroma_bins mel_bins mfcc_coeffs].
  apply chroma_stft_shape in E1 as [E1 E1'].
  apply melspectrogram_shape in E2 as [E2 _].
  apply power_to_db_shape in E3 as [E3 _].
  apply mfcc_shape in E4 as [E4 _].
  apply spectral_centroid_shape in E5 as [E5 _].
  apply rms_shape in E6 as [E6 _].
  apply zero_crossing_rate_shape in E7 as [E7 _].
  split; [done|]. split; [done|]. split; [by rewrite length_tolist|].
  split; [split; [done|]; rewrite <- E1; apply (tolist_row_length (transpose a1))|].
  split; [split; [done|]; rewrite <- E2, <- E3; apply (tolist_row_length (transpose a3))|].
  split; [split; [done|]; rewrite <- E4; apply (tolist_row_length (transpose a4))|].
  split; [rewrite <- E5; apply (tolist_row_length (transpose a5))|].
  split; [rewrite <- E6; apply (tolist_row_length (transpose a6))|].
  rewrite <- E7; apply (tolist_row_length (transpose a7)).
Qed.

(** [extract_features] returns the empty dict only from its handler:
    one of the seven calls has raised, and its exception has been
    printed. *)
Lemma extract_features_failed (audio : Audio) (w w1 : World) :
  extract_features audio w = (Ok None, w1) ->
  exists e : exn, w1 = set_stdout (stdout w ++ [PrintFeatureError e]) w.
Proof.
  unfold extract_features, try_except, mbind, M_bind, bind, call, mret, M_ret, ret.
  destruct (chroma_stft _ _ _ _ _) as [a1|e]; [|intros [= <-]; by exists e].
  destruct (melspectrogram _ _ _ _ _) as [a2|e]; [|intros [= <-]; by exists e].
  destruct (power_to_db a2) as [a3|e]; [|intros [= <-]; by exists e].
  destruct (librosa_mfcc _ _ _ _ _) as [a4|e]; [|intros [= <-]; by exists e].
  destruct (librosa_spectral_centroid _ _ _ _) as [a5|e]; [|intros [= <-]; by exists e].
  destruct (librosa_rms _ _ _) as [a6|e]; [|intros [= <-]; by exists e].
  destruct (zero_crossing_rate _ _ _) as [a7|e]; [|intros [= <-]; by exists e].
  done.
Qed.

(** X11. A file whose signal loads but whose feature extraction fails,
    at whichever of the seven calls, is not dropped: [extract_features]
    prints the failure and returns the empty dict, and the GuitarSet
    adapter records the file's sample with that dict. Such a sample
    counts in the corpus and is not usable for training. *)
Theorem guitarset_failed_extraction_recorded
    (wav : AudioFile) (audio : Audio) (samples : list Sample) (w w1 : World) :
  2 <= count_char "_" (stem wav) ->
  decoded wav = Ok audio ->
  extract_features audio w = (Ok None, w1) ->
  exists (sample : Sample) (w' : World) (e : exn) (progress : list Event),
    process_guitarset_file samples wav w = (Ok (samples ++ [sample]), w') /\
    audio_file sample = path wav /\
    features sample = None /\
    usable sample = false /\
    stdout w' = stdout w ++ PrintFeatureError e :: progress.
Proof.
  intros Hle Hdec Hfail. unfold process_guitarset_file, try_except.
  destruct (split_long _ Hle) as (player & label & style & rest & ->).
  unfold mbind, M_bind, bind, call. rewrite Hdec, Hfail.
  apply extract_features_failed in Hfail as [e ->].
  cbn [print mret M_ret ret].
  match goal with |- context [if ?b then _ else _] => destruct b end; cbn;
    eexists _, _, e, _; (split; [reflexivity|]); cbn;
    (split; [done|]); (split; [done|]); (split; [done|]).
  - by rewrite <- app_assoc.
  - by instantiate (1 := []).
Qed.

(** ** Rows and labels of the training data *)

Lemma map_lookup_total_seq (l : list F) :
  map (fun j => l !!! j) (seq 0 (length l)) = l.
Proof.
  apply list_eq. intros i. rewrite list_lookup_fmap.
  destruct (decide (i < length l)) as [Hlt|Hge].
  - rewrite lookup_seq_lt by done. cbn.
    symmetry. by apply list_lookup_lookup_total_lt.
  - rewrite lookup_seq_ge by lia. cbn. symmetry. apply lookup_ge_None_2. lia.
Qed.

(** [np.array(rows).tolist()] gives [rows] back. *)
Lemma tolist_np_array (rows : list (list F)) (a : ndarray) :
  np_array rows = Ok a -> tolist a = rows.
Proof.
  unfold np_array.
  destruct (forallb _ rows) eqn:Hrect; [|done]. intros [= <-].
  unfold tolist. cbn [shape0 shape1 item].
  apply list_eq. intros i. rewrite list_lookup_fmap.
  destruct (decide (i < length rows)) as [Hlt|Hge].
  - rewrite lookup_seq_lt by done. cbn.
    destruct (lookup_lt_is_Some_2 rows i Hlt) as [row Hrow].
    rewrite (list_lookup_total_correct rows i row Hrow), Hrow. f_equal.
    assert (length row = length (hd [] rows)) as <-.
    { rewrite forallb_forall in Hrect. apply Nat.eqb_eq, Hrect.
      by apply list_elem_of_In, (list_elem_of_lookup_2 rows i). }
    apply map_lookup_total_seq.
  - rewrite lookup_seq_ge by lia. cbn. symmetry. apply lookup_ge_None_2. lia.
Qed.

(** The class index of a label. *)
Definition label_of (c : string) : nat :=
  if Py.mem c chord_vocab then
    match Py.index c chord_vocab with
    | Ok i => i
    | Raise _ => 0
    end
  else 0.

(** The mean over the frames of the chroma of a sample. *)
Definition mean_vector (sample : Sample) : list F :=
  match np_array (chroma_of sample) with
  | Ok a => np_mean_axis0 np_mean a
  | Raise _ => []
  end.

Lemma label_index_label_of (c : string) (w : World) :
  label_index c w = (Ok (label_of c), w).
Proof.
  destruct (label_index_total (F := F) c) as [i Hi]. specialize (Hi w).
  unfold label_index, label_of, call in *.
  destruct (Py.mem c chord_vocab); [|done].
  by destruct (Py.index c chord_vocab).
Qed.

Lemma label_of_bound (c : string) : label_of c < length chord_vocab.
Proof.
  destruct (decide (c ∈ chord_vocab)) as [Hin|Hout].
  - unfold label_of. rewrite (proj2 (mem_true_iff _ _) Hin).
    apply list_elem_of_lookup_1 in Hin as [k Hk].
    rewrite (index_lookup _ k c chord_vocab_NoDup Hk).
    by eapply lookup_lt_Some.
  - apply mem_false_iff in Hout. unfold label_of. rewrite Hout. cbn. lia.
Qed.

Lemma prepare_sample_aligned (sample : Sample) acc (w : World) :
  chroma_well_formed sample ->
  prepare_sample np_mean acc sample w
  = (Ok (if usable sample
         then (acc.1 ++ [mean_vector sample], acc.2 ++ [label_of (chord sample)])
         else acc), w).
Proof.
  unfold chroma_well_formed, usable, mean_vector, chroma_of, prepare_sample.
  destruct (features sample) as [feats|]; [|done].
  destruct (chroma feats) as [|row rows] eqn:Hc; [done|].
  intros Hwf.
  destruct (np_array_rectangular (row :: rows) n_chroma) as (a & Ha & Ha0 & Ha1);
    [done | done |].
  unfold mbind, M_bind, bind, call. rewrite Ha.
  assert ((0 <? size_of a) = true) as ->.
  { apply Nat.ltb_lt. unfold size_of. rewrite Ha0, Ha1. simpl. unfold n_chroma. lia. }
  by rewrite label_index_label_of.
Qed.

Lemma for_each_prepare_aligned (samples : list Sample) acc (w : World) :
  Forall chroma_well_formed samples ->
  for_each (prepare_sample np_mean) acc samples w
  = (Ok (acc.1 ++ map mean_vector (List.filter usable samples),
         acc.2 ++ map (fun s => label_of (chord s)) (List.filter usable samples)), w).
Proof.
  intros Hwf. revert acc. induction Hwf as [|s samples Hs _ IH]; intros acc.
  - destruct acc. cbn. by rewrite !app_nil_r.
  - cbn [for_each List.filter]. unfold mbind, M_bind, bind.
    rewrite (prepare_sample_aligned s acc w Hs), IH.
    destruct (usable s); [|done]. cbn. by rewrite <- !app_assoc.
Qed.

Lemma mean_vector_length (sample : Sample) :
  chroma_well_formed sample -> usable sample = true ->
  length (mean_vector sample) = n_chroma.
Proof.
  unfold chroma_well_formed, usable, mean_vector. intros Hwf Hu.
  destruct (np_array_rectangular (chroma_of sample) n_chroma) as (a & -> & _ & Ha1);
    [by destruct (chroma_of sample) | done |].
  by rewrite length_np_mean_axis0.
Qed.

(** What [prepare_training_data] returns and prints on well-formed
    samples of which one at least is usable. *)
Lemma prepare_training_data_run (samples : list Sample) (w : World) :
  Forall chroma_well_formed samples ->
  List.filter usable samples <> [] ->
  exists (X : ndarray) (w' : World),
    prepare_training_data np_mean samples w
    = (Ok (X, map (fun s => label_of (chord s)) (List.filter usable samples)), w') /\
    tolist X = map mean_vector (List.filter usable samples) /\
    shape0 X = length (List.filter usable samples) /\
    shape1 X = n_chroma /\
    only_printed w w' /\
    stdout w'
    = stdout w ++
      [ PrintPreparing;
        PrintPrepared (length (List.filter usable samples)) n_chroma (length chord_vocab) ].
Proof.
  intros Hwf Hne.
  unfold prepare_training_data, mbind, M_bind, bind. cbn [print].
  rewrite (for_each_prepare_aligned samples _ _ Hwf). cbn [fst snd app].
  assert (Forall (fun v : list F => length v = n_chroma)
            (map mean_vector (List.filter usable samples))) as Hrows.
  { apply Forall_forall. intros v Hv.
    apply list_elem_of_fmap in Hv as (s & -> & Hs).
    apply list_elem_of_In, filter_In in Hs as [Hs Hu].
    apply mean_vector_length; [|done].
    rewrite Forall_forall in Hwf. by apply Hwf, list_elem_of_In. }
  destruct (np_array_rectangular (map mean_vector (List.filter usable samples)) n_chroma)
    as (X & HX & HX0 & HX1); [by destruct (List.filter usable samples) | done |].
  destruct (map mean_vector (List.filter usable samples)) as [|v vs] eqn:Hvs.
  { by destruct (List.filter usable samples). }
  unfold call. rewrite HX. cbn.
  exists X. eexists. split; [reflexivity|].
  split; [by apply tolist_np_array|].
  assert (shape0 X = length (List.filter usable samples)) as HX0'.
  { by rewrite HX0, <- Hvs, length_map. }
  split; [done|]. split; [done|]. split; [by repeat split|].
  cbn. by rewrite <- app_assoc, HX0', HX1.
Qed.

(** X12. On samples whose chroma frames have 12 bins, of which one at
    least is usable, [prepare_training_data] keeps rows and labels side
    by side and in the order of the samples: row [i] of the matrix is
    the mean over the frames of the chroma of the [i]-th usable sample,
    entry [i] of the label array is the class index of that sample's
    label, and every entry is a position of the vocabulary. *)
Theorem prepare_training_data_aligned (samples : list Sample) (w : World) :
  Forall chroma_well_formed samples ->
  List.filter usable samples <> [] ->
  exists (X : ndarray) (y : list nat) (w' : World),
    prepare_training_data np_mean samples w = (Ok (X, y), w') /\
    tolist X = map mean_vector (List.filter usable samples) /\
    y = map (fun s => label_of (chord s)) (List.filter usable samples) /\
    Forall (fun i => i < length chord_vocab) y /\
    Forall2 (fun s i => i = 0 \/ chord_vocab !! i = Some (chord s))
            (List.filter usable samples) y.
Proof.
  intros Hwf Hne.
  destruct (prepare_training_data_run samples w Hwf Hne) as (X & w' & Hrun & HX & _).
  eexists X, _, w'. split; [exact Hrun|]. split; [exact HX|]. split; [done|]. split.
  - apply Forall_forall. intros i Hi.
    apply list_elem_of_fmap in Hi as (s & -> & _). apply label_of_bound.
  - apply Forall2_fmap_r, Forall_Forall2_diag, Forall_forall. intros s _.
    destruct (decide (chord s ∈ chord_vocab)) as [Hin|Hout].
    + right. apply list_elem_of_lookup_1 in Hin as [k Hk].
      pose proof (label_index_in_vocab k (chord s) w Hk) as H.
      rewrite label_index_label_of in H. by injection H as ->.
    + left. apply mem_false_iff in Hout. unfold label_of. by rewrite Hout.
Qed.

(** ** The training step of [main] *)


(** X14. Whatever the samples, the [try] statement of [main] ends
    normally: a failure of the preparation is caught and printed. It
    uses no draw of the generator and can change one file only, the
    training file. *)
Theorem training_step_contained
    (args : Args) (samples : list Sample) (w : World) :
  exists w' : World,
    training_step np_mean args samples w = (Ok tt, w') /\
    rng w' = rng w /\
    forall p : string, p <> npz_path args -> files w' !! p = files w !! p.
Proof.
  unfold training_step, try_except, mbind, M_bind, bind.
  destruct (prepare_training_data_only_prints np_mean samples w)
    as (r & w1 & -> & Hrng & _ & _ & _ & _ & Hfiles).
  destruct r as [[X y]|e]; cbn; eexists; (split; [reflexivity|]); cbn;
    (split; [done|]); intros p Hp.
  - rewrite lookup_insert_ne by done. by rewrite Hfiles.
  - by rewrite Hfiles.
Qed.

(** ** Runs of [main] *)

(** X15. No run of [main] saves training data, and a run that ends
    normally has saved nothing at all: either the adapters give no
    sample, and [main] returns after its message with the output files
    untouched, or [save_processed_data] raises and the exception leaves
    [main], with nothing but the corpus file changed. *)
Theorem main_saves_no_training_data (args : Args) (w : World) :
  exists (r : result unit) (w' : World),
    main np_mean args w = (r, w') /\
    (forall p : string, p <> json_path args -> files w' !! p = files w !! p) /\
    files w' !! npz_path args = files w !! npz_path args /\
    (r = Ok tt ->
     files w' = files w /\
     exists out : list Event, stdout w' = out ++ [PrintNoDataset]).
Proof.
  destruct (collect_samples_count args (guitarset_audio w) (idmt_guitar w))
    as [n Hcount].
  destruct (Hcount w eq_refl eq_refl)
    as (all_samples & w1 & Hcollect & _ & (_ & _ & _ & _ & Hfiles1)).
  rewrite main_split. unfold mbind, M_bind, bind at 1. rewrite Hcollect.
  unfold persist. destruct all_samples as [|s0 rest].
  - cbn. eexists _, _. split; [reflexivity|]. cbn.
    split; [by intros; rewrite Hfiles1|]. split; [by rewrite Hfiles1|].
    intros _. split; [done|]. by eexists.
  - destruct (save_processed_data_nonempty_raises (s0 :: rest) (json_path args) w1)
      as (e & w' & Hsave & _ & Hfiles); [done|].
    unfold mbind, M_bind, bind. rewrite Hsave.
    exists (Raise e), w'. split; [done|].
    destruct Hfiles as [Hfiles | (written & Hfiles & _)]; rewrite Hfiles, Hfiles1.
    + by repeat split.
    + split; [by intros p Hp; rewrite lookup_insert_ne|].
      split; [|done]. apply lookup_insert_ne, json_npz_paths_differ.
Qed.

Lemma mem_filter (f : string -> bool) (x : string) (l : list string) :
  f x = true -> Py.mem x (List.filter f l) = Py.mem x l.
Proof.
  intros Hx. unfold Py.mem. induction l as [|y l IH]; [done|].
  cbn [List.filter existsb]. destruct (f y) eqn:Hy; cbn [existsb]; [by rewrite IH|].
  rewrite IH. destruct (String.eqb_spec x y) as [->|_]; [congruence | done].
Qed.

(** With neither "guitarset" nor "idmt-guitar" among the selected names
    no adapter runs: [main] prints its banner and the no-dataset
    message and returns, with the generator and the output files
    untouched. *)
Lemma main_no_known_dataset (args : Args) (w : World) :
  Py.mem "guitarset" (datasets args) = false ->
  Py.mem "idmt-guitar" (datasets args) = false ->
  exists w' : World,
    main np_mean args w = (Ok tt, w') /\
    only_printed w w' /\
    stdout w' = stdout w ++ [PrintBanner; PrintNoDataset].
Proof.
  intros Hgs Hidmt. unfold main, mbind, M_bind, bind. rewrite Hgs, Hidmt.
  cbn. eexists. split; [reflexivity|]. split; [by repeat split|].
  cbn. by rewrite <- app_assoc.
Qed.

(** X16. Of the selected dataset names [main] uses two facts only:
    whether "guitarset" is among them and whether "idmt-guitar" is,
    both compared as exact strings. Every other name is ignored without
    a message, and neither the order of the names nor a repetition
    matters: GuitarSet is always processed first, and once. *)
Theorem main_ignores_unknown_datasets (args args' : Args) (w : World) :
  output_dir args' = output_dir args ->
  Py.mem "guitarset" (datasets args') = Py.mem "guitarset" (datasets args) ->
  Py.mem "idmt-guitar" (datasets args') = Py.mem "idmt-guitar" (datasets args) ->
  main np_mean args' w = main np_mean args w /\
  main np_mean args w
  = main np_mean
      {| datasets :=
           List.filter (fun d => Py.mem d ["guitarset"; "idmt-guitar"]) (datasets args);
         output_dir := output_dir args |} w.
Proof.
  intros Hdir Hgs Hidmt. split.
  - unfold main. by rewrite Hdir, Hgs, Hidmt.
  - unfold main. cbn [datasets output_dir]. by rewrite !mem_filter.
Qed.

End Corpus.

(** * Chord names of the MIDI pack (convert_midi_to_mp3.py)

    The pure part of the conversion script: the table of chord names,
    [normalize_chord_name], and the test by which [main] recognises the
    main file of a chord folder. A [str] is the UTF-8 bytes of its
    text. *)

Module Midi.

(** [l] starts with [p]: what follows [p]. *)
Fixpoint drop_prefix (p l : list ascii) : option (list ascii) :=
  match p, l with
  | [], _ => Some l
  | c :: p', d :: l' => if Ascii.eqb c d then drop_prefix p' l' else None
  | _ :: _, [] => None
  end.

Definition bytes (l : list nat) : list ascii := ascii_of_nat <$> l.

(** The characters [str.isspace] accepts, in UTF-8: U+0009..U+000D,
    U+001C..U+0020, U+0085, U+00A0, U+1680, U+2000..U+200A, U+2028,
    U+2029, U+202F, U+205F and U+3000. *)
Definition white_space : list (list ascii) :=
  bytes <$>
  [ [9]; [10]; [11]; [12]; [13]; [28]; [29]; [30]; [31]; [32];
    [194; 133]; [194; 160]; [225; 154; 128];
    [226; 128; 128]; [226; 128; 129]; [226; 128; 130]; [226; 128; 131];
    [226; 128; 132]; [226; 128; 133]; [226; 128; 134]; [226; 128; 135];
    [226; 128; 136]; [226; 128; 137]; [226; 128; 138];
    [226; 128; 168]; [226; 128; 169]; [226; 128; 175];
    [226; 129; 159]; [227; 128; 128] ].

(** One leading character of [ws] removed from [l], if there is one. *)
Fixpoint strip_one (ws : list (list ascii)) (l : list ascii) : option (list ascii) :=
  match ws with
  | [] => None
  | p :: ws' =>
      match drop_prefix p l with
      | Some rest => Some rest
      | None => strip_one ws' l
      end
  end.

(** Leading characters of [ws] removed, at most [fuel] of them. *)
Fixpoint lstrip_go (ws : list (list ascii)) (fuel : nat) (l : list ascii) : list ascii :=
  match fuel with
  | 0 => l
  | S fuel' =>
      match strip_one ws l with
      | Some rest => lstrip_go ws fuel' rest
      | None => l
      end
  end.

Definition lstrip (l : list ascii) : list ascii :=
  lstrip_go white_space (length l) l.

Definition rstrip (l : list ascii) : list ascii :=
  reverse (lstrip_go (reverse <$> white_space) (length l) (reverse l)).

(** [s.strip()] *)
Definition str_strip (s : string) : string :=
  string_of_list_ascii (rstrip (lstrip (list_ascii_of_string s))).

(** [s.replace(old, new)] for a non-empty [old]: the occurrences of
    [old] are replaced from left to right, and an occurrence that
    overlaps a replaced one is not one. [skip] is what is left of the
    occurrence being replaced. *)
Fixpoint replace_go (old new : string) (skip : nat) (s : string) : string :=
  match s with
  | EmptyString => EmptyString
  | String c s' =>
      match skip with
      | S k => replace_go old new k s'
      | 0 =>
          if String.prefix old s
          then new +:+ replace_go old new (String.length old - 1) s'
          else String c (replace_go old new 0 s')
      end
  end.

Definition str_replace (old new s : string) : string := replace_go old new 0 s.

Definition chord_name_entries : list (string * string) :=
  [ ("C", "C"); ("C ", "C"); ("D", "D"); ("E", "E"); ("F", "F"); ("G", "G");
    ("A", "A"); ("B", "B");
    ("Cmin", "Cm"); ("Dmin", "Dm"); ("Emin", "Em"); ("Fmin", "Fm");
    ("Gmin", "Gm"); ("Amin", "Am"); ("Bmin", "Bm");
    ("C7", "C7"); ("D7", "D7"); ("E7", "E7"); ("F7", "F7"); ("G7", "G7");
    ("A7", "A7"); ("B7", "B7");
    ("C#", "C#"); ("D#", "D#"); ("F#", "F#"); ("G#", "G#"); ("A#", "A#");
    ("C#min", "C#m"); ("D#min", "D#m"); ("F#min", "F#m"); ("G#min", "G#m");
    ("A#min", "A#m");
    ("C#7", "C#7"); ("D#7", "D#7"); ("F#7", "F#7"); ("A#7", "A#7") ].

Definition CHORD_NAME_MAPPING : gmap string string :=
  list_to_map chord_name_entries.

Definition normalize_chord_name (midi_name : string) : string :=
  let name := str_strip (str_replace ".mid" "" midi_name) in
  match CHORD_NAME_MAPPING !! name with
  | Some chord => chord
  | None => name
  end.

(** The test of [main] on a file of a chord folder, given the file's
    stem: the stripped stem is the folder's name, or one of the two
    spellings of C. *)
Definition is_main_midi (folder_name stem : string) : bool :=
  let name := str_strip stem in
  String.eqb name folder_name || Py.mem name ["C "; "C"].

(** The file [main] converts for a folder, given the stems of the
    folder's MIDI files in the order the directory yields them: the
    first that passes the test, the first of all when none does. *)
Definition main_midi (folder_name : string) (midi_stems : list string) : option string :=
  match List.find (is_main_midi folder_name) midi_stems with
  | Some stem => Some stem
  | None => head midi_stems
  end.

End Midi.

Lemma drop_prefix_Some (p l rest : list ascii) :
  Midi.drop_prefix p l = Some rest <-> l = p ++ rest.
Proof.
  revert l. induction p as [|c p IH]; intros l; cbn.
  - split; [by intros [= ->] | by intros ->].
  - destruct l as [|d l]; [done|]. destruct (Ascii.eqb_spec c d) as [->|Hne].
    + rewrite IH. split; [by intros -> | by intros [= ->]].
    + split; [done | by intros [= -> _]].
Qed.

Lemma strip_one_Some (ws : list (list ascii)) (l rest : list ascii) :
  Midi.strip_one ws l = Some rest -> exists p, p ∈ ws /\ l = p ++ rest.
Proof.
  induction ws as [|p ws IH]; cbn; [done|].
  destruct (Midi.drop_prefix p l) as [r|] eqn:Hp.
  - intros [= ->]. exists p. split; [left | by apply drop_prefix_Some].
  - intros (q & Hq & ->)%IH. exists q. split; [by right | done].
Qed.

Lemma strip_one_None (ws : list (list ascii)) (p rest : list ascii) :
  Midi.strip_one ws (p ++ rest) = None -> p ∉ ws.
Proof.
  induction ws as [|q ws IH]; cbn; [intros _; apply not_elem_of_nil|].
  destruct (Midi.drop_prefix q (p ++ rest)) as [r|] eqn:Hq; [done|].
  intros Hws [Heq|Hin]%elem_of_cons; [|by apply IH].
  subst q. by rewrite (proj2 (drop_prefix_Some p (p ++ rest) rest)) in Hq.
Qed.

Lemma strip_one_None_prefix (ws : list (list ascii)) (a b : list ascii) :
  Midi.strip_one ws (a ++ b) = None -> Midi.strip_one ws a = None.
Proof.
  intros Hab. destruct (Midi.strip_one ws a) as [r|] eqn:Ha; [|done].
  apply strip_one_Some in Ha as (p & Hp & ->).
  rewrite <- app_assoc in Hab. by apply strip_one_None in Hab.
Qed.

Lemma lstrip_go_clean (ws : list (list ascii)) (fuel : nat) (l : list ascii) :
  [] ∉ ws -> length l <= fuel ->
  Midi.strip_one ws (Midi.lstrip_go ws fuel l) = None.
Proof.
  intros Hws. revert l. induction fuel as [|fuel IH]; intros l Hlen; cbn.
  - destruct l; [|cbn in Hlen; lia].
    destruct (Midi.strip_one ws []) as [r|] eqn:Hr; [|done].
    apply strip_one_Some in Hr as (p & Hp & Heq).
    symmetry in Heq. apply app_eq_nil in Heq as [-> _]. done.
  - destruct (Midi.strip_one ws l) as [r|] eqn:Hr; [|done].
    apply IH. apply strip_one_Some in Hr as (p & Hp & ->).
    rewrite length_app in Hlen. destruct p; [done|]. cbn in Hlen. lia.
Qed.

Lemma lstrip_go_suffix (ws : list (list ascii)) (fuel : nat) (l : list ascii) :
  exists u, l = u ++ Midi.lstrip_go ws fuel l.
Proof.
  revert l. induction fuel as [|fuel IH]; intros l; cbn; [by exists []|].
  destruct (Midi.strip_one ws l) as [r|] eqn:Hr; [|by exists []].
  apply strip_one_Some in Hr as (p & _ & ->). destruct (IH r) as [u Hu].
  exists (p ++ u). by rewrite <- app_assoc, <- Hu.
Qed.

Lemma lstrip_go_fixed (ws : list (list ascii)) (fuel : nat) (l : list ascii) :
  Midi.strip_one ws l = None -> Midi.lstrip_go ws fuel l = l.
Proof. intros Hl. destruct fuel; cbn; [done|]. by rewrite Hl. Qed.

Lemma white_space_nonempty : [] ∉ Midi.white_space.
Proof.
  assert (Forall (fun p : list ascii => p <> []) Midi.white_space) as Hall
    by (repeat constructor; done).
  intros Hin. by apply (proj1 (Forall_forall _ _) Hall) in Hin.
Qed.

Lemma white_space_reverse_nonempty : [] ∉ reverse <$> Midi.white_space.
Proof.
  intros (p & Hp & Hin)%list_elem_of_fmap. symmetry in Hp.
  apply (f_equal reverse) in Hp. rewrite reverse_involutive in Hp.
  subst p. by apply white_space_nonempty.
Qed.

(** What [rstrip (lstrip l)] leaves starts and ends with no white
    space. *)
Lemma strip_clean (l : list ascii) :
  Midi.strip_one Midi.white_space (Midi.rstrip (Midi.lstrip l)) = None /\
  Midi.strip_one (reverse <$> Midi.white_space)
    (reverse (Midi.rstrip (Midi.lstrip l))) = None.
Proof.
  pose proof (lstrip_go_clean Midi.white_space (length l) l white_space_nonempty
                (le_n _)) as Hleft.
  fold (Midi.lstrip l) in Hleft. set (m := Midi.lstrip l) in *.
  unfold Midi.rstrip. rewrite reverse_involutive. split.
  - destruct (lstrip_go_suffix (reverse <$> Midi.white_space) (length m) (reverse m))
      as [u Hu].
    apply (f_equal reverse) in Hu. rewrite reverse_involutive, reverse_app in Hu.
    rewrite Hu in Hleft. by apply strip_one_None_prefix in Hleft.
  - apply lstrip_go_clean; [apply white_space_reverse_nonempty|].
    by rewrite length_reverse.
Qed.

Lemma strip_fixed (l : list ascii) :
  Midi.strip_one Midi.white_space l = None ->
  Midi.strip_one (reverse <$> Midi.white_space) (reverse l) = None ->
  Midi.rstrip (Midi.lstrip l) = l.
Proof.
  intros Hl Hr. unfold Midi.lstrip. rewrite lstrip_go_fixed by done.
  unfold Midi.rstrip. rewrite lstrip_go_fixed by done. apply reverse_involutive.
Qed.

Lemma str_strip_idemp (s : string) :
  Midi.str_strip (Midi.str_strip s) = Midi.str_strip s.
Proof.
  unfold Midi.str_strip. rewrite list_ascii_of_string_of_list_ascii.
  f_equal. by apply strip_fixed; apply strip_clean.
Qed.

(** A stripped string does not end with a space. *)
Lemma str_strip_not_spaced (s root : string) :
  Midi.str_strip s <> root +:+ " ".
Proof.
  unfold Midi.str_strip. intros Heq.
  apply (f_equal list_ascii_of_string) in Heq.
  rewrite list_ascii_of_string_of_list_ascii in Heq.
  destruct (strip_clean (list_ascii_of_string s)) as [_ Hright].
  rewrite Heq in Hright.
  assert (list_ascii_of_string (root +:+ " ") = list_ascii_of_string root ++ [" "%char])
    as Hroot.
  { clear. induction root as [|c root IH]; [done|].
    cbn [list_ascii_of_string app]. rewrite <- IH. reflexivity. }
  rewrite Hroot, reverse_app in Hright.
  apply strip_one_None in Hright.
  apply Hright. vm_compute. do 9 right. left.
Qed.

Lemma replace_go_absent (old new s : string) :
  Py.contains old s = false -> Midi.replace_go old new 0 s = s.
Proof.
  induction s as [|c s IH]; [done|].
  cbn [Py.contains Midi.replace_go].
  intros [Hp Hs]%orb_false_iff. rewrite Hp. by rewrite IH.
Qed.

Lemma chord_name_lookup (name chord : string) :
  Midi.CHORD_NAME_MAPPING !! name = Some chord ->
  (name, chord) ∈ Midi.chord_name_entries.
Proof. apply elem_of_list_to_map_2. Qed.

(** [k] without its ending "min", when it has one. *)
Fixpoint chop_min (k : string) : option string :=
  if String.eqb k "min" then Some EmptyString
  else match k with
       | EmptyString => None
       | String c k' => String c <$> chop_min k'
       end.

Lemma chop_min_Some (k root : string) :
  chop_min k = Some root -> k = root +:+ "min".
Proof.
  revert root. induction k as [|c k IH]; intros root; [done|].
  destruct (String.eqb_spec (String c k) "min") as [Heq|Hne].
  - unfold chop_min. rewrite (proj2 (String.eqb_eq _ _) Heq). by intros [= <-].
  - change (chop_min (String c k))
      with (if String.eqb (String c k) "min" then Some EmptyString
            else String c <$> chop_min k).
    rewrite (proj2 (String.eqb_neq _ _) Hne).
    destruct (chop_min k) as [r|]; [|done].
    intros [= <-]. change (String c k = String c (r +:+ "min")). by rewrite (IH r).
Qed.

(** An entry of the table that maps a name to itself, or shortens its
    ending "min" to "m". *)
Definition shortens_min (entry : string * string) : bool :=
  String.eqb entry.2 entry.1 ||
  match chop_min entry.1 with
  | Some root => String.eqb entry.2 (root +:+ "m")
  | None => false
  end.

Lemma chord_name_entries_forall (P : string * string -> bool) (name chord : string) :
  forallb P Midi.chord_name_entries = true ->
  Midi.CHORD_NAME_MAPPING !! name = Some chord ->
  P (name, chord) = true.
Proof.
  intros Hall Hlook. apply chord_name_lookup in Hlook.
  rewrite forallb_forall in Hall. apply Hall. by apply list_elem_of_In.
Qed.

Lemma is_main_midi_true (folder_name stem : string) :
  Midi.is_main_midi folder_name stem = true ->
  Midi.str_strip stem = folder_name \/ Midi.str_strip stem = "C".
Proof.
  unfold Midi.is_main_midi, Py.mem. cbn [existsb].
  intros [Hname|Hc]%orb_true_iff; [left; by apply String.eqb_eq|].
  apply orb_true_iff in Hc as [Hspaced|Hc].
  - apply String.eqb_eq in Hspaced. by apply (str_strip_not_spaced _ "C") in Hspaced.
  - right. rewrite orb_false_r in Hc. by apply String.eqb_eq.
Qed.

(** X17. No name is looked up under the key "C " (C and a space) of
    the table: the name has been stripped. [normalize_chord_name]
    returns the same for every input when that entry is deleted. *)
Theorem normalize_chord_name_spaced_key_unused (midi_name : string) :
  let name := Midi.str_strip (Midi.str_replace ".mid" "" midi_name) in
  name <> "C " /\
  Midi.normalize_chord_name midi_name
  = default name (delete "C " Midi.CHORD_NAME_MAPPING !! name).
Proof.
  intros name. assert (name <> "C ") as Hname by apply (str_strip_not_spaced _ "C").
  split; [done|]. unfold Midi.normalize_chord_name. fold name.
  by rewrite lookup_delete_ne.
Qed.

(** X18. The chord name [normalize_chord_name] returns neither starts
    nor ends with white space: stripping it again changes nothing,
    whether the name comes from the table or is the fallback. *)
Theorem normalize_chord_name_stripped (midi_name : string) :
  Midi.str_strip (Midi.normalize_chord_name midi_name)
  = Midi.normalize_chord_name midi_name.
Proof.
  unfold Midi.normalize_chord_name.
  destruct (Midi.CHORD_NAME_MAPPING !! _) as [chord|] eqn:Hlook.
  - apply (chord_name_entries_forall
             (fun entry => String.eqb (Midi.str_strip entry.2) entry.2)) in Hlook;
      [by apply String.eqb_eq in Hlook | by vm_compute].
  - apply str_strip_idemp.
Qed.

(** X19. All the table does to a name is shorten an ending "min" to
    "m": the chord name is the stripped name itself, or the stripped
    name is some root followed by "min" and the chord name is that root
    followed by "m". The one entry of the table that does something
    else is the one under "C ", which no name reaches. *)
Theorem normalize_chord_name_shortens_min (midi_name : string) :
  let name := Midi.str_strip (Midi.str_replace ".mid" "" midi_name) in
  Midi.normalize_chord_name midi_name = name \/
  exists root : string,
    name = root +:+ "min" /\ Midi.normalize_chord_name midi_name = root +:+ "m".
Proof.
  intros name. unfold Midi.normalize_chord_name. fold name.
  destruct (Midi.CHORD_NAME_MAPPING !! name) as [chord|] eqn:Hlook; [|by left].
  apply (chord_name_entries_forall
           (fun entry => String.eqb entry.1 "C " || shortens_min entry)) in Hlook;
    [|by vm_compute].
  unfold shortens_min in Hlook. cbn [fst snd] in Hlook.
  apply orb_true_iff in Hlook as [Hspaced|Hlook].
  { apply String.eqb_eq in Hspaced. by apply (str_strip_not_spaced _ "C") in Hspaced. }
  apply orb_true_iff in Hlook as [Heq|Hmin].
  - left. by apply String.eqb_eq.
  - right. destruct (chop_min name) as [root|] eqn:Hroot; [|done].
    exists root. split; [by apply chop_min_Some | by apply String.eqb_eq].
Qed.

(** X20. In the test of [main] for the main file of a folder the
    alternative "C " never holds, the stem having been stripped: a file
    passes when its stripped stem is the folder's name or is "C". *)
Theorem is_main_midi_spaced_alternative_dead (folder_name stem : string) :
  Midi.is_main_midi folder_name stem
  = String.eqb (Midi.str_strip stem) folder_name || String.eqb (Midi.str_strip stem) "C".
Proof.
  unfold Midi.is_main_midi, Py.mem. cbn [existsb].
  rewrite (proj2 (String.eqb_neq (Midi.str_strip stem) "C "))
    by apply (str_strip_not_spaced _ "C").
  by rewrite orb_false_r.
Qed.

(** X21. When some MIDI file of a folder passes the test of [main] and
    no stem holds ".mid", the file [main] converts is one of the
    folder's, and its chord name is what the table gives for the
    folder's name (the folder's name itself when the table has no
    entry), or is "C". *)
Theorem main_midi_named_after_folder (folder_name : string) (midi_stems : list string) :
  existsb (Midi.is_main_midi folder_name) midi_stems = true ->
  Forall (fun stem => Py.contains ".mid" stem = false) midi_stems ->
  exists stem : string,
    Midi.main_midi folder_name midi_stems = Some stem /\
    stem ∈ midi_stems /\
    (Midi.normalize_chord_name stem
     = default folder_name (Midi.CHORD_NAME_MAPPING !! folder_name) \/
     Midi.normalize_chord_name stem = "C").
Proof.
  intros Hex Hmid. unfold Midi.main_midi.
  destruct (List.find (Midi.is_main_midi folder_name) midi_stems) as [stem|] eqn:Hfind.
  - apply find_some in Hfind as [Hin Hmain]. apply list_elem_of_In in Hin.
    exists stem. split; [done|]. split; [done|].
    pose proof (proj1 (Forall_forall _ _) Hmid stem Hin) as Habsent. cbn in Habsent.
    unfold Midi.normalize_chord_name, Midi.str_replace.
    rewrite replace_go_absent by done.
    apply is_main_midi_true in Hmain as [-> | ->].
    + left. by destruct (Midi.CHORD_NAME_MAPPING !! folder_name).
    + by right.
  - apply existsb_exists in Hex as (stem & Hin & Hmain).
    by rewrite (find_none _ _ Hfind stem Hin) in Hmain.
Qed.

(** X22. A class index other than 0 decodes to the label it was given
    for: it is the position of that very label in the vocabulary, the
    [chord_vocab] array of the training file. *)
Theorem nonzero_class_index_decodes
    {F : Type} (c : string) (k : nat) (w w' : World (F := F)) :
  label_index c w = (Ok k, w') ->
  k <> 0 ->
  chord_vocab !! k = Some c /\ w' = w.
Proof.
  intros Hrun Hk. destruct (decide (c ∈ chord_vocab)) as [Hin|Hout].
  - apply list_elem_of_lookup_1 in Hin as [k' Hk'].
    rewrite (label_index_in_vocab k' c w Hk') in Hrun. by injection Hrun as <- <-.
  - rewrite (label_index_not_in_vocab c w Hout) in Hrun. by injection Hrun as <- <-.
Qed.

(** * Concrete runs of the further properties *)

(** ** The adapters *)

(** A GuitarSet file with a well-formed stem that cannot be decoded. *)
Definition broken_take : AudioFile (F := Z) :=
  {| path := "datasets/guitarset/audio/p1_C_broken.wav";
     stem := "p1_C_broken";
     decoded := Raise (Raised "LibsndfileError" "Format not recognised") |}.

(** GuitarSet holds a good file, one with a short stem, one that cannot
    be decoded and one whose signal is empty. *)
Definition four_takes : World :=
  world_of (fun _ => 0)
    (Some [tone "p1_Am_strum"; tone "notes_01"; broken_take; silent_take]) None.

Lemma process_guitarset_samples_witness :
  exists (samples : list Sample) (w' : World),
    process_guitarset four_takes = (Ok samples, w') /\
    Forall2 guitarset_sample_of [tone "p1_Am_strum"; silent_take] samples /\
    only_printed four_takes w'.
Proof.
  apply (process_guitarset_samples
           [tone "p1_Am_strum"; tone "notes_01"; broken_take; silent_take] four_takes).
  reflexivity.
Defined.

Lemma guitarset_short_stem_skipped_witness :
  count_char "_" (stem (tone "notes_01")) = 1 /\
  process_guitarset_file [] (tone "notes_01") four_takes = (Ok [], four_takes).
Proof.
  split; [reflexivity|].
  apply (guitarset_short_stem_skipped (tone "notes_01") [] four_takes).
  cbn. lia.
Defined.

Lemma guitarset_load_failure_reported_witness :
  process_guitarset_file [] broken_take empty_world
  = (Ok [],
     set_stdout
       [ PrintFileError "datasets/guitarset/audio/p1_C_broken.wav"
           (Raised "LibsndfileError" "Format not recognised") ]
       empty_world).
Proof.
  apply (guitarset_load_failure_reported broken_take
           (Raised "LibsndfileError" "Format not recognised") [] empty_world).
  - cbn. lia.
  - reflexivity.
Defined.

Lemma guitarset_id_is_stem_witness :
  exists (sample : Sample) (w' : World),
    process_guitarset_file [] (tone "p1_Am_strum") empty_world = (Ok [sample], w') /\
    id sample = "GuitarSet_p1_Am_strum".
Proof.
  eexists _, _. split; [vm_compute; reflexivity|].
  apply (guitarset_id_is_stem (tone "p1_Am_strum")); [reflexivity|].
  split; [reflexivity|]. split; [reflexivity|]. split; [reflexivity|]. split.
  - exists "p1", "strum", []. by repeat split.
  - exists [5; 0; 2]%Z. split; [reflexivity|]. split; [reflexivity|].
    intros w. reflexivity.
Defined.

(** An IDMT file whose stem matches no pattern and that cannot be
    decoded. *)
Definition broken_riff : AudioFile (F := Z) :=
  {| path := "datasets/idmt-guitar/riff_2.wav";
     stem := "riff_2";
     decoded := Raise (Raised "LibsndfileError" "Format not recognised") |}.

(** IDMT holds a file named after a chord and two whose stems match no
    pattern, the second of which cannot be decoded; the generator
    counts. *)
Definition three_riffs : World :=
  world_of (fun n => n) None (Some [g_take; riff; broken_riff]).

Lemma process_idmt_guitar_samples_witness :
  exists (samples : list Sample) (w' : World),
    process_idmt_guitar three_riffs = (Ok samples, w') /\
    Forall2 idmt_sample_of [g_take; riff] samples /\
    same_env three_riffs w' /\
    forall n : nat, rng w' n = n + 2.
Proof.
  apply (process_idmt_guitar_samples [g_take; riff; broken_riff] three_riffs).
  reflexivity.
Defined.

Lemma idmt_draw_precedes_load_witness :
  process_idmt_file [] broken_riff three_riffs
  = (Ok [],
     set_stdout
       [ PrintFileError "datasets/idmt-guitar/riff_2.wav"
           (Raised "LibsndfileError" "Format not recognised") ]
       (set_rng (fun n => S n) three_riffs)).
Proof.
  apply (idmt_draw_precedes_load broken_riff
           (Raised "LibsndfileError" "Format not recognised") [] three_riffs);
    reflexivity.
Defined.

(** ** Feature dicts and training data *)

Lemma extract_features_shape_entry_witness :
  exists b : Features,
    extract_features [5; 0; 2]%Z empty_world = (Ok (Some b), empty_world) /\
    time_steps (shape b) = 1 /\
    length (chroma b) = 1 /\
    Forall (fun row : list Z => length row = 12) (chroma b).
Proof.
  eexists. split; [vm_compute; reflexivity|].
  edestruct (extract_features_shape_entry [5; 0; 2]%Z empty_world)
    as (_ & Hsteps & Hlen & [Hbins Hrows] & _).
  - vm_compute. reflexivity.
  - split; [exact Hsteps|]. split; [exact Hlen|]. exact Hrows.
Defined.

(** Two samples whose labels differ in a NUL character at the end:
    two labels for Python's set, one for numpy's histogram. *)
Example nul_padded_labels_merge :
  let samples :=
    [ sample_with "C" None; sample_with (String "C" (String Ascii.zero "")) None ] in
  unique_chords (corpus_metadata_of "2024-05-01T12:00:00" samples) = 2 /\
  size (chord_distribution (corpus_metadata_of "2024-05-01T12:00:00" samples)) = 1 /\
  chord_distribution (corpus_metadata_of "2024-05-01T12:00:00" samples) !! "C" = Some 2.
Proof. by vm_compute. Qed.

(** A stand-in for librosa whose first six calls return arrays of
    zeros on every signal, and whose last call raises on an empty
    one. *)
Definition late_librosa : Librosa (F := Z) := {|
  chroma_stft y sr n_fft hop n_chroma := Ok (zeros n_chroma (frame_count y hop));
  melspectrogram y sr n_fft hop n_mels := Ok (zeros n_mels (frame_count y hop));
  power_to_db S := Ok S;
  librosa_mfcc y sr n_mfcc n_fft hop := Ok (zeros n_mfcc (frame_count y hop));
  librosa_spectral_centroid y sr n_fft hop := Ok (zeros 1 (frame_count y hop));
  librosa_rms y frame_length hop := Ok (zeros 1 (frame_count y hop));
  zero_crossing_rate y frame_length hop := framed y 1 hop
|}.

(** The extraction fails at its last call; the sample is recorded all
    the same. *)
Lemma guitarset_failed_extraction_recorded_witness :
  exists (sample : Sample) (w' : World) (e : exn) (progress : list Event),
    process_guitarset_file (H := late_librosa) [] silent_take empty_world
    = (Ok ([] ++ [sample]), w') /\
    audio_file sample = "datasets/guitarset/audio/p1_C_fingerstyle.wav" /\
    features sample = None /\
    usable sample = false /\
    stdout w' = stdout empty_world ++ PrintFeatureError e :: progress.
Proof.
  eapply (guitarset_failed_extraction_recorded (Librosa0 := late_librosa)
            silent_take [] [] empty_world).
  - cbn. lia.
  - reflexivity.
  - vm_compute. reflexivity.
Defined.

Example failed_extraction_at_the_first_call :
  exists (sample : Sample) (w' : World),
    process_guitarset_file [] silent_take empty_world = (Ok [sample], w') /\
    features sample = None /\
    stdout w' = [PrintFeatureError (Raised "ParameterError" "empty signal")].
Proof. eexists _, _. split; [vm_compute; reflexivity|]. by split. Qed.

Lemma prepare_training_data_aligned_witness :
  exists (X : ndarray) (y : list nat) (w' : World),
    prepare_training_data mean_Z two_samples empty_world = (Ok (X, y), w') /\
    tolist X = [ [2; 0; 0; 0; 1; 0; 0; 1; 0; 0; 0; 0]%Z ] /\
    y = [21].
Proof.
  destruct (prepare_training_data_aligned mean_Z two_samples empty_world)
    as (X & y & w' & Hrun & HX & Hy & _).
  - repeat constructor.
  - discriminate.
  - exists X, y, w'. split; [exact Hrun|]. rewrite HX, Hy. by vm_compute.
Defined.


(** ** Dataset selection *)

Example main_no_known_dataset_run :
  exists w' : World,
    main mean_Z {| datasets := ["GuitarSet"]; output_dir := "out" |} three_tones
    = (Ok tt, w') /\
    only_printed three_tones w' /\
    stdout w' = [PrintBanner; PrintNoDataset].
Proof.
  apply (main_no_known_dataset mean_Z
           {| datasets := ["GuitarSet"]; output_dir := "out" |} three_tones);
    reflexivity.
Qed.

(** The names in another order, one of them twice, and a name [main]
    does not know. *)
Lemma main_ignores_unknown_datasets_witness :
  main mean_Z
    {| datasets := ["idmt-guitar"; "maestro"; "guitarset"; "idmt-guitar"];
       output_dir := "datasets/processed" |} three_tones
  = main mean_Z default_args three_tones.
Proof.
  apply (main_ignores_unknown_datasets mean_Z default_args
           {| datasets := ["idmt-guitar"; "maestro"; "guitarset"; "idmt-guitar"];
              output_dir := "datasets/processed" |} three_tones);
    reflexivity.
Defined.

(** ** Class indices *)

Lemma nonzero_class_index_decodes_witness :
  label_index "Am" empty_world = (Ok 21, empty_world) /\
  chord_vocab !! 21 = Some "Am".
Proof.
  split; [reflexivity|].
  apply (nonzero_class_index_decodes "Am" 21 empty_world empty_world);
    [reflexivity | discriminate].
Defined.

(** ** Chord folders of the MIDI pack *)

Example normalize_minor_with_extension :
  Midi.normalize_chord_name " Amin.mid" = "Am".
Proof. by vm_compute. Qed.

(** The folder of A minor holds three files; the second is the main
    file, and the chord name is the one the table gives for the
    folder. *)
Lemma main_midi_named_after_folder_witness :
  exists stem : string,
    Midi.main_midi "Amin" ["Amin6"; "Amin "; "C"] = Some stem /\
    stem ∈ ["Amin6"; "Amin "; "C"] /\
    (Midi.normalize_chord_name stem = "Am" \/ Midi.normalize_chord_name stem = "C").
Proof.
  apply (main_midi_named_after_folder "Amin" ["Amin6"; "Amin "; "C"]).
  - by vm_compute.
  - repeat constructor.
Defined.
